(** * The extract-text route of the CV enhancer

    A shallow embedding of [web-app/src/app/api/extract-text/route.ts]:
    the [POST] handler, [extractTextFromFile] and [preprocessText].

    The handler talks to the outside world (form parsing, the clock, the
    file system, two Python child processes, the console).  Everything the
    outside world decides is an input of the model, gathered in the record
    [Env]; everything the handler does to the outside world is recorded, in
    order, in a trace of [Effect]s.

    Conventions of the model:
    - strings are sequences of UTF-16 code units, [trim] removes the
      white space and line terminators of ECMAScript;
    - [path.join] is the POSIX one of Node;
    - [spawn] either throws at once (an argument that holds a NUL, an
      argument list that is too long: the platform decides) or returns a
      child; a child is the list of events it emits, and one that emits
      neither ['close'] nor ['error'] leaves its promise pending for ever;
    - the caller of an [await] resumes as soon as the promise is settled:
      the events of a child up to the settling one are delivered before the
      code after the [await] runs, and what the anonymization child emits
      later reaches its listeners while the handler awaits the deletion of
      the temp file (the listeners of the extraction child write nothing,
      so when they hear its later events cannot be observed);
    - [file.arrayBuffer()] resolves, and [file.size] is read as the
      interface gives it, independently of the bytes. *)

From Stdlib Require Import List ZArith NArith Lia Bool Ascii String.
From Stdlib Require Import DecimalString DecimalZ.
Import ListNotations.

Local Open Scope Z_scope.

(** ** JavaScript strings

    A JavaScript string is a sequence of UTF-16 code units. *)

Definition jsstring := list N.

(** An ASCII literal of the source, as code units. *)
Definition lit (s : string) : jsstring :=
  map N_of_ascii (list_ascii_of_string s).

(** [===] on strings. *)
Fixpoint jsstring_eqb (a b : jsstring) : bool :=
  match a, b with
  | [], [] => true
  | x :: a', y :: b' => (x =? y)%N && jsstring_eqb a' b'
  | _, _ => false
  end.

(** [WhiteSpace] and [LineTerminator] of ECMAScript: what
    [String.prototype.trim] removes. *)
Definition isWhiteSpace (c : N) : bool :=
  ((9 <=? c) && (c <=? 13) || (c =? 32) || (c =? 160) || (c =? 5760)
   || (8192 <=? c) && (c <=? 8202) || (c =? 8232) || (c =? 8233)
   || (c =? 8239) || (c =? 8287) || (c =? 12288) || (c =? 65279))%N.

Fixpoint trimStart (s : jsstring) : jsstring :=
  match s with
  | [] => []
  | c :: s' => if isWhiteSpace c then trimStart s' else s
  end.

Definition trimEnd (s : jsstring) : jsstring := rev (trimStart (rev s)).

Definition trim (s : jsstring) : jsstring := trimEnd (trimStart s).

(** A number in a template literal.  The numbers the route formats are
    integers (a millisecond timestamp, an exit code), which print as their
    decimal digits. *)
Definition Number_toString (n : Z) : jsstring :=
  lit (NilZero.string_of_int (Z.to_int n)).

(** ** [path.join] (POSIX flavour of Node's [path] module) *)

Definition SLASH : N := 47%N.

Fixpoint split (s : jsstring) : list jsstring :=
  match s with
  | [] => [[]]
  | c :: s' =>
      if (c =? SLASH)%N then [] :: split s'
      else match split s' with
           | seg :: segs => (c :: seg) :: segs
           | [] => [[c]]
           end
  end.

Fixpoint intercalate (parts : list jsstring) : jsstring :=
  match parts with
  | [] => []
  | [p] => p
  | p :: rest => p ++ SLASH :: intercalate rest
  end.

Definition isDot (seg : jsstring) : bool := jsstring_eqb seg (lit ".").
Definition isDotDot (seg : jsstring) : bool := jsstring_eqb seg (lit "..").
Definition isEmpty (seg : jsstring) : bool :=
  match seg with [] => true | _ => false end.

(** [normalizeString] of Node, on the segments between the separators:
    [res] is the stack of segments kept so far, last one first. *)
Fixpoint normalizeSegments (allowAboveRoot : bool) (res segs : list jsstring)
  : list jsstring :=
  match segs with
  | [] => rev res
  | seg :: rest =>
      if isEmpty seg || isDot seg then normalizeSegments allowAboveRoot res rest
      else if isDotDot seg then
        match res with
        | last :: res' =>
            if isDotDot last
            then normalizeSegments allowAboveRoot
                   (if allowAboveRoot then seg :: res else res) rest
            else normalizeSegments allowAboveRoot res' rest
        | [] =>
            normalizeSegments allowAboveRoot
              (if allowAboveRoot then [seg] else []) rest
        end
      else normalizeSegments allowAboveRoot (seg :: res) rest
  end.

Definition startsWithSlash (p : jsstring) : bool :=
  match p with c :: _ => (c =? SLASH)%N | [] => false end.

Definition endsWithSlash (p : jsstring) : bool := startsWithSlash (rev p).

Definition normalize (path : jsstring) : jsstring :=
  match path with
  | [] => lit "."
  | _ =>
      let isAbsolute := startsWithSlash path in
      let trailingSeparator := endsWithSlash path in
      let p := intercalate
                 (normalizeSegments (negb isAbsolute) [] (split path)) in
      match p with
      | [] => if isAbsolute then lit "/"
              else if trailingSeparator then lit "./" else lit "."
      | _ => (if isAbsolute then [SLASH] else [])
             ++ p ++ (if trailingSeparator then [SLASH] else [])
      end
  end.

Definition join (args : list jsstring) : jsstring :=
  match filter (fun a => negb (isEmpty a)) args with
  | [] => lit "."
  | parts => normalize (intercalate parts)
  end.

(** ** The data of a request *)

(** An [Error] object: all the route reads of one is its message. *)
Record JsError := MkError { message : jsstring }.

(** The [File] interface, as far as the route reads it. *)
Record File := {
  name : jsstring;
  type : jsstring;
  size : Z;
  arrayBuffer : list Byte.byte
}.

(** A [FormDataEntryValue]: a file or a string. *)
Inductive FormDataEntryValue :=
| EntryFile (f : File)
| EntryString (s : jsstring).

(** [FormData]: the fields in the order they were sent; a name may repeat. *)
Definition FormData := list (jsstring * FormDataEntryValue).

(** [FormData.get]: the first value of that name, or [null]. *)
Fixpoint FormData_get (fd : FormData) (key : jsstring)
  : option FormDataEntryValue :=
  match fd with
  | [] => None
  | (k, v) :: rest => if jsstring_eqb k key then Some v else FormData_get rest key
  end.

(** What a child process emits, in order.  A stream chunk is given as the
    string [data.toString()] yields; the exit code of ['close'] is [null]
    when the process was killed by a signal. *)
Inductive ChildEvent :=
| StdoutData (data : jsstring)
| StderrData (data : jsstring)
| Close (code : option Z)
| ChildError (err : JsError).

(** What a call of [spawn] comes to: it throws synchronously, or returns a
    child that emits these events.  Which of the two is an input of the
    model, as every outcome the platform decides: the model does not work
    it out from the arguments. *)
Inductive Child :=
| SpawnThrows (e : JsError)
| Spawned (events : list ChildEvent).

Definition events_of (c : Child) : list ChildEvent :=
  match c with
  | Spawned events => events
  | SpawnThrows _ => []
  end.

(** The first ['close'] or ['error'] event settles the promise of the
    caller. *)
Definition isSettling (ev : ChildEvent) : bool :=
  match ev with Close _ | ChildError _ => true | _ => false end.

(** The events delivered until the promise is settled, the settling one
    included, and those that come later. *)
Fixpoint until_settled (events : list ChildEvent) : list ChildEvent :=
  match events with
  | [] => []
  | ev :: rest => if isSettling ev then [ev] else ev :: until_settled rest
  end.

Fixpoint after_settled (events : list ChildEvent) : list ChildEvent :=
  match events with
  | [] => []
  | ev :: rest => if isSettling ev then rest else after_settled rest
  end.

(** The response: [NextResponse.json(body, init)]. *)
Inductive JsonValue :=
| JString (s : jsstring)
| JNumber (n : Z).

Definition JsonObject := list (string * JsonValue).

Record Response := { status : Z; body : JsonObject }.

Definition NextResponse_json (b : JsonObject) (init : option Z) : Response :=
  {| status := match init with Some s => s | None => 200 end; body := b |}.

(** ** The outside world *)

Record Env := {
  request_formData : FormData + JsError;    (* [request.formData()] *)
  Date_now : Z;                             (* [Date.now()] *)
  tmpdir : jsstring;                        (* [os.tmpdir()] *)
  process_cwd : jsstring;                   (* [process.cwd()] *)
  writeFile_outcome : option JsError;       (* [None]: the write succeeds *)
  unlink_outcome : nat -> option JsError;   (* of the n-th [unlink] call *)
  extract_child : Child;                    (* the first [spawn] *)
  anonymize_child : Child                   (* the second [spawn] *)
}.

Definition extract_events (env : Env) : list ChildEvent :=
  events_of (extract_child env).

Definition anonymize_events (env : Env) : list ChildEvent :=
  events_of (anonymize_child env).

Inductive JsValue :=
| VString (s : jsstring)
| VError (e : JsError).

Inductive Effect :=
| FsWriteFile (path : jsstring) (data : list Byte.byte)
| FsUnlink (path : jsstring)
| ChildSpawn (command : jsstring) (args : list jsstring)
| ConsoleLog (args : list JsValue)
| ConsoleWarn (args : list JsValue)
| ConsoleError (args : list JsValue).

(** ** Asynchronous code with exceptions

    A computation runs on the trace of what was done so far, and either
    completes normally, throws, or awaits a promise that never settles. *)

Inductive Completion (A : Type) :=
| Normal (a : A)
| Throw (e : JsError)
| NeverSettles.

Arguments Normal {A} a.
Arguments Throw {A} e.
Arguments NeverSettles {A}.

Definition M (A : Type) := list Effect -> Completion A * list Effect.

Definition ret {A} (a : A) : M A := fun tr => (Normal a, tr).

Definition throw {A} (e : JsError) : M A := fun tr => (Throw e, tr).

Definition bind {A B} (m : M A) (k : A -> M B) : M B :=
  fun tr =>
    match m tr with
    | (Normal a, tr') => k a tr'
    | (Throw e, tr') => (Throw e, tr')
    | (NeverSettles, tr') => (NeverSettles, tr')
    end.

Definition try_catch {A} (m : M A) (handler : JsError -> M A) : M A :=
  fun tr =>
    match m tr with
    | (Throw e, tr') => handler e tr'
    | r => r
    end.

Definition emit (e : Effect) : M unit := fun tr => (Normal tt, tr ++ [e]).

Declare Scope js_scope.
Delimit Scope js_scope with js.
Notation "x <- m ;; k" := (bind m (fun x => k))
  (at level 61, m at next level, right associativity) : js_scope.
Notation "m ;; k" := (bind m (fun _ => k))
  (at level 61, right associativity) : js_scope.
Local Open Scope js_scope.

(** A promise, and the two functions its executor is given: settling a
    promise that is already settled does nothing. *)
Inductive Promise :=
| Pending
| Resolved (value : jsstring)
| Rejected (reason : JsError).

Definition resolve (v : jsstring) (p : Promise) : Promise :=
  match p with Pending => Resolved v | _ => p end.

Definition reject (e : JsError) (p : Promise) : Promise :=
  match p with Pending => Rejected e | _ => p end.

Definition await (p : Promise) : M jsstring :=
  match p with
  | Resolved v => ret v
  | Rejected e => throw e
  | Pending => fun tr => (NeverSettles, tr)
  end.

(** The variables a promise executor closes over. *)
Record Listener := {
  output : jsstring;
  error : jsstring;
  promise : Promise
}.

Definition listening : Listener :=
  {| output := []; error := []; promise := Pending |}.

(** The event loop delivering the events of a child to its listeners. *)
Fixpoint dispatch (on : ChildEvent -> Listener -> M Listener)
  (events : list ChildEvent) (l : Listener) : M Listener :=
  match events with
  | [] => ret l
  | ev :: rest => l' <- on ev l ;; dispatch on rest l'
  end.

(** What the listeners have made of their variables after [events]. *)
Definition listener_after (on : ChildEvent -> Listener -> M Listener)
  (events : list ChildEvent) (l : Listener) : Listener :=
  match fst (dispatch on events l []) with
  | Normal l' => l'
  | _ => l
  end.

(** [await io] suspends the caller: what the event loop has to deliver is
    delivered once the call is issued, before the caller resumes with its
    outcome. *)
Definition during {A} (io : M A) (loop : M unit) : M A :=
  fun tr =>
    match io tr with
    | (c, tr') => (c, snd (loop tr'))
    end.

(** ** The file system and the console *)

Definition writeFile (env : Env) (path : jsstring) (data : list Byte.byte)
  : M unit :=
  emit (FsWriteFile path data) ;;
  match writeFile_outcome env with
  | None => ret tt
  | Some e => throw e
  end.

(** The paths [unlink] was called on so far, in order. *)
Definition unlinked (tr : list Effect) : list jsstring :=
  flat_map (fun e => match e with FsUnlink p => [p] | _ => [] end) tr.

Definition unlink (env : Env) (path : jsstring) : M unit :=
  fun tr =>
    let n := List.length (unlinked tr) in
    match unlink_outcome env n with
    | None => (Normal tt, tr ++ [FsUnlink path])
    | Some e => (Throw e, tr ++ [FsUnlink path])
    end.

Definition console_log (args : list JsValue) : M unit := emit (ConsoleLog args).
Definition console_warn (args : list JsValue) : M unit := emit (ConsoleWarn args).
Definition console_error (args : list JsValue) : M unit := emit (ConsoleError args).

(** [spawn(command, args)]: the call is recorded whether or not it gives a
    child. *)
Definition spawn (command : jsstring) (args : list jsstring) (child : Child)
  : M (list ChildEvent) :=
  emit (ChildSpawn command args) ;;
  match child with
  | Spawned events => ret events
  | SpawnThrows e => throw e
  end.

(** ** route.ts *)

Definition with_output (l : Listener) (s : jsstring) : Listener :=
  {| output := s; error := error l; promise := promise l |}.

Definition with_error (l : Listener) (s : jsstring) : Listener :=
  {| output := output l; error := s; promise := promise l |}.

Definition with_promise (l : Listener) (p : Promise) : Listener :=
  {| output := output l; error := error l; promise := p |}.

Definition code_is_zero (code : option Z) : bool :=
  match code with Some c => c =? 0 | None => false end.

Definition code_toString (code : option Z) : jsstring :=
  match code with Some c => Number_toString c | None => lit "null" end.

(** The listeners [extractTextFromFile] registers on its child. *)
Definition extract_on (ev : ChildEvent) (l : Listener) : M Listener :=
  match ev with
  | StdoutData data => ret (with_output l (output l ++ data))
  | StderrData data => ret (with_error l (error l ++ data))
  | Close code =>
      if code_is_zero code
      then ret (with_promise l (resolve (trim (output l)) (promise l)))
      else ret (with_promise l
             (reject (MkError (lit "Python script failed: " ++ error l))
                (promise l)))
  | ChildError err =>
      ret (with_promise l
        (reject (MkError (lit "Failed to start Python process: " ++ message err))
           (promise l)))
  end.

(** [await extractTextFromFile(filePath)]: the executor of the promise,
    the events of the child, and the caller resuming when it settles.  An
    exception thrown by the executor rejects the promise, and the [await]
    throws it. *)
Definition extractTextFromFile (env : Env) (filePath : jsstring) : M jsstring :=
  let pythonScript :=
    join [process_cwd env; lit "scripts"; lit "extract_text.py"] in
  python <- spawn (lit "python3") [pythonScript; filePath] (extract_child env) ;;
  l <- dispatch extract_on (until_settled python) listening ;;
  await (promise l).

(** The listeners [preprocessText] registers on its child. *)
Definition preprocess_on (text : jsstring) (ev : ChildEvent) (l : Listener)
  : M Listener :=
  match ev with
  | StdoutData data => ret (with_output l (output l ++ data))
  | StderrData data =>
      let stderrData := data in
      let l := with_error l (error l ++ stderrData) in
      console_log [VString (lit "Python stderr:"); VString stderrData] ;;
      ret l
  | Close code =>
      console_log
        [VString (lit "Preprocessing completed with code: " ++ code_toString code)] ;;
      if code_is_zero code
      then
        console_log [VString (lit "Preprocessing successful")] ;;
        ret (with_promise l (resolve (trim (output l)) (promise l)))
      else
        console_warn [VString (lit "Preprocessing failed, using original text:");
                      VString (error l)] ;;
        ret (with_promise l (resolve text (promise l)))
  | ChildError err =>
      console_warn [VString (lit "Preprocessing error, using original text:");
                    VString (message err)] ;;
      ret (with_promise l (resolve text (promise l)))
  end.

(** [await preprocessText(text)]. *)
Definition preprocessText (env : Env) (text : jsstring) : M jsstring :=
  console_log [VString (lit "Starting preprocessing...")] ;;
  let pythonScript :=
    join [process_cwd env; lit "scripts"; lit "anonymize_personal_info.py"] in
  python <- spawn (lit "python3") [pythonScript; text] (anonymize_child env) ;;
  l <- dispatch (preprocess_on text) (until_settled python) listening ;;
  await (promise l).

(** What the listeners of [preprocessText(text)] do with the events that
    reach them once the promise is settled: they find [output] and [error]
    as the earlier events left them. *)
Definition preprocessText_late (env : Env) (text : jsstring) : M unit :=
  let python := anonymize_events env in
  let l := listener_after (preprocess_on text) (until_settled python)
             listening in
  dispatch (preprocess_on text) (after_settled python) l ;;
  ret tt.

Definition tempFilePath (env : Env) (file : File) : jsstring :=
  join [tmpdir env;
        lit "temp_" ++ Number_toString (Date_now env) ++ lit "_" ++ name file].

Definition formData (env : Env) : M FormData :=
  match request_formData env with
  | inl fd => ret fd
  | inr e => throw e
  end.

(** [formData.get('file') as File] is an unchecked cast: the value may be
    [null] or a string.  [!file] holds of [null] and of the empty string;
    the [type] of a string is [undefined], which is not the PDF type.

    Nothing suspends the handler between the end of [await preprocessText]
    and the call of [unlink]: the [await] of that first deletion is where
    the listeners of the anonymization child hear what it still emits.
    (When the [catch] block is entered from elsewhere there is nothing
    left to hear: no anonymization child, or its events already
    delivered.) *)
Definition POST (env : Env) : M Response :=
  try_catch
    (fd <- formData env ;;
     match FormData_get fd (lit "file") with
     | None =>
         ret (NextResponse_json
                [("message"%string, JString (lit "No file provided"))] (Some 400))
     | Some (EntryString []) =>
         ret (NextResponse_json
                [("message"%string, JString (lit "No file provided"))] (Some 400))
     | Some (EntryString (_ :: _)) =>
         ret (NextResponse_json
                [("message"%string,
                  JString (lit "Invalid file type. Only PDF files are allowed."))]
                (Some 400))
     | Some (EntryFile file) =>
         if negb (jsstring_eqb (type file) (lit "application/pdf"))
         then ret (NextResponse_json
                [("message"%string,
                  JString (lit "Invalid file type. Only PDF files are allowed."))]
                (Some 400))
         else if size file >? 5 * 1024 * 1024
         then ret (NextResponse_json
                [("message"%string,
                  JString (lit "File too large. Maximum size is 5MB."))]
                (Some 400))
         else
           let buffer := arrayBuffer file in
           let tempFilePath := tempFilePath env file in
           writeFile env tempFilePath buffer ;;
           try_catch
             (extractedText <- extractTextFromFile env tempFilePath ;;
              preprocessedText <- preprocessText env extractedText ;;
              console_log [VString (lit "=== RAW EXTRACTED TEXT ===")] ;;
              console_log [VString extractedText] ;;
              console_log [VString (10%N :: lit "=== ANONYMIZED TEXT ===")] ;;
              console_log [VString preprocessedText] ;;
              console_log [VString (lit "========================" ++ [10%N])] ;;
              during (unlink env tempFilePath)
                (preprocessText_late env extractedText) ;;
              ret (NextResponse_json
                     [("text"%string, JString preprocessedText);
                      ("rawText"%string, JString extractedText);
                      ("filename"%string, JString (name file));
                      ("size"%string, JNumber (size file))]
                     None))
             (fun error =>
                unlink env tempFilePath ;;
                throw error)
     end)
    (fun error =>
       console_error [VString (lit "Error processing file:"); VError error] ;;
       ret (NextResponse_json
              [("message"%string,
                JString (lit "Error processing file. Please try again."))]
              (Some 500))).

(** One request, from an empty trace. *)
Definition completion (env : Env) : Completion Response := fst (POST env []).
Definition trace (env : Env) : list Effect := snd (POST env []).

(** ** Reading a trace *)

Definition isWriteFile (e : Effect) : bool :=
  match e with FsWriteFile _ _ => true | _ => false end.

Definition isSpawn (e : Effect) : bool :=
  match e with ChildSpawn _ _ => true | _ => false end.

Definition isConsole (e : Effect) : bool :=
  match e with
  | ConsoleLog _ | ConsoleWarn _ | ConsoleError _ => true
  | _ => false
  end.

(** What was done to the file system and to processes, console output
    left out. *)
Definition actions (tr : list Effect) : list Effect :=
  filter (fun e => negb (isConsole e)) tr.

(** ** Scenarios *)

Definition cv_pdf : File :=
  {| name := lit "cv.pdf"; type := lit "application/pdf"; size := 10240;
     arrayBuffer := [] |}.

Definition scenario (file : File) (extract anonymize : list ChildEvent)
  (unl : nat -> option JsError) : Env :=
  {| request_formData := inl [(lit "file", EntryFile file)];
     Date_now := 1700000000000;
     tmpdir := lit "/tmp";
     process_cwd := lit "/app";
     writeFile_outcome := None;
     unlink_outcome := unl;
     extract_child := Spawned extract;
     anonymize_child := Spawned anonymize |}.

(** ** What a child's events amount to

    The first ['close'] or ['error'] event settles the promise; the chunks
    delivered before it are what [output] and [error] hold at that time.
    [extract_promise] and [preprocess_promise] give the settled promise of
    a child in closed form, [extractTextFromFile_promise] and
    [preprocessText_promise] that of a call; that the listeners compute
    exactly these is proved below ([extractTextFromFile_run],
    [preprocessText_run]). *)

Fixpoint settledBy (events : list ChildEvent) : option ChildEvent :=
  match events with
  | [] => None
  | ev :: rest => if isSettling ev then Some ev else settledBy rest
  end.

Fixpoint stdoutBefore (events : list ChildEvent) : jsstring :=
  match events with
  | StdoutData d :: rest => d ++ stdoutBefore rest
  | StderrData _ :: rest => stdoutBefore rest
  | _ => []
  end.

Fixpoint stderrBefore (events : list ChildEvent) : jsstring :=
  match events with
  | StderrData d :: rest => d ++ stderrBefore rest
  | StdoutData _ :: rest => stderrBefore rest
  | _ => []
  end.

Definition extract_promise (events : list ChildEvent) : Promise :=
  match settledBy events with
  | Some (Close code) =>
      if code_is_zero code then Resolved (trim (stdoutBefore events))
      else Rejected (MkError (lit "Python script failed: " ++ stderrBefore events))
  | Some (ChildError err) =>
      Rejected (MkError (lit "Failed to start Python process: " ++ message err))
  | _ => Pending
  end.

Definition preprocess_promise (text : jsstring) (events : list ChildEvent)
  : Promise :=
  match settledBy events with
  | Some (Close code) =>
      if code_is_zero code then Resolved (trim (stdoutBefore events))
      else Resolved text
  | Some (ChildError _) => Resolved text
  | _ => Pending
  end.

Definition extractTextFromFile_promise (env : Env) : Promise :=
  match extract_child env with
  | SpawnThrows e => Rejected e
  | Spawned events => extract_promise events
  end.

Definition preprocessText_promise (env : Env) (text : jsstring) : Promise :=
  match anonymize_child env with
  | SpawnThrows e => Rejected e
  | Spawned events => preprocess_promise text events
  end.

(** The three responses that carry a message, and the successful one. *)
Definition response_400 (msg : string) : Response :=
  {| status := 400; body := [("message"%string, JString (lit msg))] |}.

Definition response_500 : Response :=
  {| status := 500;
     body := [("message"%string,
               JString (lit "Error processing file. Please try again."))] |}.

Definition response_200 (text rawText : jsstring) (file : File) : Response :=
  {| status := 200;
     body := [("text"%string, JString text);
              ("rawText"%string, JString rawText);
              ("filename"%string, JString (name file));
              ("size"%string, JNumber (size file))] |}.

Definition extract_script (env : Env) : jsstring :=
  join [process_cwd env; lit "scripts"; lit "extract_text.py"].

Definition anonymize_script (env : Env) : jsstring :=
  join [process_cwd env; lit "scripts"; lit "anonymize_personal_info.py"].

(** ** Predicates and scenarios used in the statements *)

Definition error_logged (e : JsError) : Effect :=
  ConsoleError [VString (lit "Error processing file:"); VError e].

(** The error the outer [catch] receives when a deletion failed with [e]
    and the deletion attempted after it ended as [second]. *)
Definition first_error (e : JsError) (second : option JsError) : JsError :=
  match second with Some e' => e' | None => e end.

(** The request carries [file] in its [file] field. *)
Definition uploaded (env : Env) (file : File) : Prop :=
  exists fd, request_formData env = inl fd
             /\ FormData_get fd (lit "file") = Some (EntryFile file).

(** The handler got past its checks: it went on to write the temp file. *)
Definition passes_validation (env : Env) : bool :=
  existsb isWriteFile (trace env).

(** The two checks of the handler on an uploaded file. *)
Definition valid (file : File) : Prop :=
  type file = lit "application/pdf" /\ size file <= 5 * 1024 * 1024.

Definition empty_form : Env :=
  {| request_formData := inl [(lit "note", EntryString (lit "hello"))];
     Date_now := 1700000000000;
     tmpdir := lit "/tmp";
     process_cwd := lit "/app";
     writeFile_outcome := None;
     unlink_outcome := fun _ => None;
     extract_child := Spawned [];
     anonymize_child := Spawned [] |}.

Definition msword_upload : Env :=
  scenario {| name := lit "cv.doc"; type := lit "application/msword";
              size := 10240; arrayBuffer := [] |}
    [StdoutData (lit "John Doe"); Close (Some 0)]
    [StdoutData (lit "[NAME]"); Close (Some 0)]
    (fun _ => None).

Definition corrupt_pdf : Env :=
  scenario cv_pdf [StderrData (lit "corrupt PDF"); Close (Some 1)] []
    (fun _ => None).

(** Scenario A of the specification. *)
Definition scenario_A : Env :=
  scenario cv_pdf
    [StdoutData (lit "John Doe, Software Engineer"); StdoutData [10%N];
     Close (Some 0)]
    [StdoutData (lit "[NAME], Software Engineer"); StdoutData [10%N];
     Close (Some 0)]
    (fun _ => None).



(** Both workers succeed and the first [unlink] is refused. *)
Definition deletion_refused : Env :=
  scenario cv_pdf
    [StdoutData (lit "John Doe, Software Engineer"); Close (Some 0)]
    [StdoutData (lit "[NAME], Software Engineer"); Close (Some 0)]
    (fun n => match n with
              | O => Some (MkError (lit "EPERM: operation not permitted"))
              | _ => None
              end).

(** Extraction succeeds, the anonymization worker cannot be started (Node
    emits ['error'], then ['close'] with a negative code), and the first
    [unlink] is refused. *)
Definition no_anonymizer_deletion_refused : Env :=
  scenario cv_pdf
    [StdoutData (lit "John Doe, Software Engineer"); Close (Some 0)]
    [ChildError (MkError (lit "spawn python3 ENOENT")); Close (Some (-2))]
    (fun n => match n with
              | O => Some (MkError (lit "EPERM: operation not permitted"))
              | _ => None
              end).

(** Both workers succeed, the first [unlink] is refused and the second
    finds no file. *)
Definition deletion_refused_twice : Env :=
  scenario cv_pdf
    [StdoutData (lit "John Doe, Software Engineer"); Close (Some 0)]
    [StdoutData (lit "[NAME], Software Engineer"); Close (Some 0)]
    (fun n => match n with
              | O => Some (MkError (lit "EPERM: operation not permitted"))
              | _ => Some (MkError (lit "ENOENT: no such file or directory"))
              end).

(** The anonymization worker exits 0 without printing anything. *)
Definition silent_anonymizer : Env :=
  scenario cv_pdf
    [StdoutData (lit "John Doe, Software Engineer"); Close (Some 0)]
    [Close (Some 0)]
    (fun _ => None).

(** The request wrote its temp file at [path]: the first thing it did was
    a [writeFile] there, and that write succeeded. *)
Definition acquired (env : Env) (path : jsstring) : Prop :=
  writeFile_outcome env = None
  /\ exists data rest, trace env = FsWriteFile path data :: rest.

(** A segment that [path.join] keeps as it is. *)
Definition plain (seg : jsstring) : Prop :=
  seg <> [] /\ ~ In SLASH seg /\ seg <> lit "." /\ seg <> lit "..".

Definition temp_name (now : Z) (filename : jsstring) : jsstring :=
  lit "temp_" ++ Number_toString now ++ lit "_" ++ filename.

Definition isDigitOrMinus (c : N) : Prop := (c = 45 \/ 48 <= c <= 57)%N.

(** Two uploads of the same name in the same millisecond. *)
Definition alice_cv : File :=
  {| name := lit "cv.pdf"; type := lit "application/pdf"; size := 1;
     arrayBuffer := [Byte.x41] |}.

Definition bob_cv : File :=
  {| name := lit "cv.pdf"; type := lit "application/pdf"; size := 1;
     arrayBuffer := [Byte.x42] |}.

Definition alice_request : Env :=
  scenario alice_cv [StdoutData (lit "Alice"); Close (Some 0)]
    [StdoutData (lit "[NAME]"); Close (Some 0)] (fun _ => None).

Definition bob_request : Env :=
  scenario bob_cv [StdoutData (lit "Bob"); Close (Some 0)]
    [StdoutData (lit "[NAME]"); Close (Some 0)] (fun _ => None).

(** The same request, one millisecond later. *)
Definition later (env : Env) : Env :=
  {| request_formData := request_formData env;
     Date_now := Date_now env + 1;
     tmpdir := tmpdir env;
     process_cwd := process_cwd env;
     writeFile_outcome := writeFile_outcome env;
     unlink_outcome := unlink_outcome env;
     extract_child := extract_child env;
     anonymize_child := anonymize_child env |}.

(** An absolute, normalized path other than the root: what [os.tmpdir()]
    gives on a system set up as usual. *)
Definition isDirectoryPath (dir : jsstring) : Prop :=
  startsWithSlash dir = true /\ endsWithSlash dir = false
  /\ normalize dir = dir.

(** [p] names an entry of the directory [dir]. *)
Definition inDirectory (dir p : jsstring) : Prop :=
  exists entry, entry <> [] /\ ~ In SLASH entry /\ p = dir ++ SLASH :: entry.

(** Filenames with a separator, or with two dots, that lead nowhere else. *)
Definition detour_pdf : File :=
  {| name := lit "a/../cv.pdf"; type := lit "application/pdf"; size := 4;
     arrayBuffer := [Byte.x72; Byte.x6f; Byte.x6f; Byte.x74] |}.

Definition dotdot_pdf : File :=
  {| name := lit ".."; type := lit "application/pdf"; size := 4;
     arrayBuffer := [Byte.x72; Byte.x6f; Byte.x6f; Byte.x74] |}.

Definition detour_upload : Env :=
  scenario detour_pdf
    [StdoutData (lit "John Doe"); Close (Some 0)]
    [StdoutData (lit "[NAME]"); Close (Some 0)]
    (fun _ => None).

Definition dotdot_upload : Env :=
  scenario dotdot_pdf
    [StdoutData (lit "John Doe"); Close (Some 0)]
    [StdoutData (lit "[NAME]"); Close (Some 0)]
    (fun _ => None).

Definition traversal_upload : Env :=
  scenario {| name := lit "x/../../etc/passwd"; type := lit "application/pdf";
              size := 4; arrayBuffer := [Byte.x72; Byte.x6f; Byte.x6f; Byte.x74] |}
    [StdoutData (lit "John Doe"); Close (Some 0)]
    [StdoutData (lit "[NAME]"); Close (Some 0)]
    (fun _ => None).

(** ** More scenarios *)

(** The temp directory has no room left. *)
Definition disk_full : Env :=
  {| request_formData := inl [(lit "file", EntryFile cv_pdf)];
     Date_now := 1700000000000;
     tmpdir := lit "/tmp";
     process_cwd := lit "/app";
     writeFile_outcome := Some (MkError (lit "ENOSPC: no space left on device"));
     unlink_outcome := fun _ => None;
     extract_child := Spawned [StdoutData (lit "John Doe"); Close (Some 0)];
     anonymize_child := Spawned [StdoutData (lit "[NAME]"); Close (Some 0)] |}.

(** A child that goes on emitting events. *)
Definition emitting (c : Child) (late : list ChildEvent) : Child :=
  match c with
  | Spawned events => Spawned (events ++ late)
  | SpawnThrows e => SpawnThrows e
  end.

(** The same request, whose children go on emitting events. *)
Definition with_late_events (env : Env)
  (late_extract late_anonymize : list ChildEvent) : Env :=
  {| request_formData := request_formData env;
     Date_now := Date_now env;
     tmpdir := tmpdir env;
     process_cwd := process_cwd env;
     writeFile_outcome := writeFile_outcome env;
     unlink_outcome := unlink_outcome env;
     extract_child := emitting (extract_child env) late_extract;
     anonymize_child := emitting (anonymize_child env) late_anonymize |}.

(** Neither the first nor the last code unit of [s] is white space. *)
Definition hasNoOuterWhiteSpace (s : jsstring) : Prop :=
  match s with
  | [] => True
  | c :: _ => isWhiteSpace c = false /\ isWhiteSpace (last s c) = false
  end.


(** The same request with another form. *)
Definition with_form (env : Env) (fd : FormData) : Env :=
  {| request_formData := inl fd;
     Date_now := Date_now env;
     tmpdir := tmpdir env;
     process_cwd := process_cwd env;
     writeFile_outcome := writeFile_outcome env;
     unlink_outcome := unlink_outcome env;
     extract_child := extract_child env;
     anonymize_child := anonymize_child env |}.

(** A form with a note and two files. *)
Definition two_files : Env :=
  with_form scenario_A
    [(lit "note", EntryString (lit "my cv"));
     (lit "file", EntryFile cv_pdf);
     (lit "file", EntryFile {| name := lit "other.doc";
                               type := lit "application/msword";
                               size := 7; arrayBuffer := [] |})].

(** The extracted text holds a NUL, which no argument of a process may
    hold: the [spawn] of the anonymization worker throws. *)
Definition nul_in_text : Env :=
  {| request_formData := inl [(lit "file", EntryFile cv_pdf)];
     Date_now := 1700000000000;
     tmpdir := lit "/tmp";
     process_cwd := lit "/app";
     writeFile_outcome := None;
     unlink_outcome := fun _ => None;
     extract_child :=
       Spawned [StdoutData (lit "John" ++ [0%N] ++ lit "Doe"); Close (Some 0)];
     anonymize_child :=
       SpawnThrows
         (MkError
            (lit "The argument 'args[1]' must be a string without null bytes.")) |}.

(** What a valid upload is answered, and what is done for it to the file
    system and to processes, in closed form ([POST_summary] below). *)
Definition summary (env : Env) (file : File)
  : Completion Response * list Effect :=
  let path := tempFilePath env file in
  let written := FsWriteFile path (arrayBuffer file) in
  let extracting := ChildSpawn (lit "python3") [extract_script env; path] in
  let anonymizing raw :=
    ChildSpawn (lit "python3") [anonymize_script env; raw] in
  match writeFile_outcome env with
  | Some _ => (Normal response_500, [written])
  | None =>
      match extractTextFromFile_promise env with
      | Pending => (NeverSettles, [written; extracting])
      | Rejected _ =>
          (Normal response_500, [written; extracting; FsUnlink path])
      | Resolved raw =>
          match preprocessText_promise env raw with
          | Pending => (NeverSettles, [written; extracting; anonymizing raw])
          | Rejected _ =>
              (Normal response_500,
               [written; extracting; anonymizing raw; FsUnlink path])
          | Resolved text =>
              match unlink_outcome env 0%nat with
              | None =>
                  (Normal (response_200 text raw file),
                   [written; extracting; anonymizing raw; FsUnlink path])
              | Some _ =>
                  (Normal response_500,
                   [written; extracting; anonymizing raw;
                    FsUnlink path; FsUnlink path])
              end
          end
      end
  end.

(** ** page.tsx

    The [Home] component: its React state, what its handlers do to the
    browser, and the answer of the network to its one [fetch].  What
    [response.json()] gives is read as a flat object; a body that is not
    JSON makes it throw (so does, further on, a property read on a [null]
    body, which the same [catch] receives). *)

Module Page.

Record State := {
  isDragActive : bool;
  uploadedFile : option File;
  isProcessing : bool;
  extractedText : option JsonValue    (* [None]: [undefined] *)
}.

(** The [useState] initial values. *)
Definition initial : State :=
  {| isDragActive := false; uploadedFile := None; isProcessing := false;
     extractedText := Some (JString []) |}.

Inductive Effect :=
| Fetch (url method : jsstring) (body : FormData)
| Alert (message : jsstring)
| ConsoleError (args : list JsValue).

Record Browser := { state : State; effects : list Effect }.

(** What the network does with the request. *)
Inductive FetchOutcome :=
| NetworkError (e : JsError)                       (* [fetch] rejects *)
| NoAnswer                                         (* [fetch] stays pending *)
| Answer (status : Z) (json : Completion JsonObject).

Definition M (A : Type) := Browser -> Completion A * Browser.

Definition ret {A} (a : A) : M A := fun b => (Normal a, b).

Definition throw {A} (e : JsError) : M A := fun b => (Throw e, b).

Definition bind {A B} (m : M A) (k : A -> M B) : M B :=
  fun b =>
    match m b with
    | (Normal a, b') => k a b'
    | (Throw e, b') => (Throw e, b')
    | (NeverSettles, b') => (NeverSettles, b')
    end.

Definition try_catch {A} (m : M A) (handler : JsError -> M A) : M A :=
  fun b =>
    match m b with
    | (Throw e, b') => handler e b'
    | r => r
    end.

(** [try { m } finally { finalizer }]: the finalizer runs when [m] is over,
    however it ended. *)
Definition try_finally {A} (m : M A) (finalizer : M unit) : M A :=
  fun b =>
    match m b with
    | (NeverSettles, b') => (NeverSettles, b')
    | (c, b') =>
        match finalizer b' with
        | (Normal _, b'') => (c, b'')
        | (Throw e, b'') => (Throw e, b'')
        | (NeverSettles, b'') => (NeverSettles, b'')
        end
    end.

Declare Scope page_scope.
Delimit Scope page_scope with page.
Notation "x <- m ;; k" := (bind m (fun x => k))
  (at level 61, m at next level, right associativity) : page_scope.
Notation "m ;; k" := (bind m (fun _ => k))
  (at level 61, right associativity) : page_scope.
Local Open Scope page_scope.

Definition emit (e : Effect) : M unit :=
  fun b => (Normal tt, {| state := state b; effects := effects b ++ [e] |}).

Definition set (f : State -> State) : M unit :=
  fun b => (Normal tt, {| state := f (state b); effects := effects b |}).

Definition setUploadedFile (v : option File) : M unit :=
  set (fun s => {| isDragActive := isDragActive s; uploadedFile := v;
                   isProcessing := isProcessing s;
                   extractedText := extractedText s |}).

Definition setIsProcessing (v : bool) : M unit :=
  set (fun s => {| isDragActive := isDragActive s;
                   uploadedFile := uploadedFile s; isProcessing := v;
                   extractedText := extractedText s |}).

Definition setExtractedText (v : option JsonValue) : M unit :=
  set (fun s => {| isDragActive := isDragActive s;
                   uploadedFile := uploadedFile s;
                   isProcessing := isProcessing s; extractedText := v |}).

Definition alert (message : jsstring) : M unit := emit (Alert message).

Definition console_error (args : list JsValue) : M unit :=
  emit (ConsoleError args).

(** [FormData.append]: at the end. *)
Definition FormData_append (fd : FormData) (key : jsstring)
  (v : FormDataEntryValue) : FormData := fd ++ [(key, v)].

Definition fetch (net : FetchOutcome) (url method : jsstring) (body : FormData)
  : M (Z * Completion JsonObject) :=
  emit (Fetch url method body) ;;
  match net with
  | NetworkError e => throw e
  | NoAnswer => fun b => (NeverSettles, b)
  | Answer status json => ret (status, json)
  end.

(** [response.ok] *)
Definition ok (response : Z * Completion JsonObject) : bool :=
  (200 <=? fst response) && (fst response <=? 299).

(** [await response.json()] *)
Definition json (response : Z * Completion JsonObject) : M JsonObject :=
  fun b => (snd response, b).

(** Reading a property of a parsed object: the last of that name counts. *)
Fixpoint get (obj : JsonObject) (key : string) : option JsonValue :=
  match obj with
  | [] => None
  | (k, v) :: rest =>
      match get rest key with
      | Some v' => Some v'
      | None => if String.eqb k key then Some v else None
      end
  end.

(** A value in a template literal. *)
Definition toString (v : option JsonValue) : jsstring :=
  match v with
  | None => lit "undefined"
  | Some (JString s) => s
  | Some (JNumber n) => Number_toString n
  end.

Definition handleFileUpload (net : FetchOutcome) (file : File) : M unit :=
  setIsProcessing true ;;
  setExtractedText (Some (JString [])) ;;
  let formData := FormData_append [] (lit "file") (EntryFile file) in
  try_finally
    (try_catch
       (response <- fetch net (lit "/api/extract-text") (lit "POST") formData ;;
        if ok response
        then
          data <- json response ;;
          setExtractedText (get data "text")
        else
          error <- json response ;;
          alert (lit "Error: " ++ toString (get error "message")))
       (fun error =>
          console_error [VString (lit "Error uploading file:"); VError error] ;;
          alert (lit "Error uploading file. Please try again.")))
    (setIsProcessing false).

(** [onDrop]: the upload it starts is followed to its end. *)
Definition onDrop (net : FetchOutcome) (acceptedFiles : list File) : M unit :=
  match acceptedFiles with
  | [] => ret tt
  | file :: _ =>
      setUploadedFile (Some file) ;;
      handleFileUpload net file
  end.

(** What the page shows: [{extractedText && ...}] renders its panel for a
    truthy value only. *)
Definition showsExtractedText (s : State) : bool :=
  match extractedText s with
  | None => false
  | Some (JString []) => false
  | Some (JString (_ :: _)) => true
  | Some (JNumber n) => negb (n =? 0)
  end.

Definition alerts (b : Browser) : list jsstring :=
  flat_map (fun e => match e with Alert m => [m] | _ => [] end) (effects b).

Definition start : Browser := {| state := initial; effects := [] |}.

End Page.

(** The route behind the page: the network delivers the form the page
    built and brings back the answer of [POST] unchanged.  (The handler
    never throws; were it to, the framework would answer 500 with a body
    that is not JSON.) *)
Definition served (env : Env) : Page.FetchOutcome :=
  match completion env with
  | Normal r => Page.Answer (status r) (Normal (body r))
  | Throw e => Page.Answer 500 (Throw e)
  | NeverSettles => Page.NoAnswer
  end.

(** The request the page sends for [file], as the route receives it. *)
Definition receives (env : Env) (file : File) : Prop :=
  request_formData env
  = inl (Page.FormData_append [] (lit "file") (EntryFile file)).

(** * Properties *)

Arguments lit : simpl never.
Arguments join : simpl never.
Arguments trim : simpl never.
Arguments Number_toString : simpl never.

Ltac unfold_js :=
  cbv beta iota zeta delta
    [bind ret throw emit with_output with_error with_promise
     console_log console_warn console_error spawn].

Ltac run := unfold_js; cbn; unfold_js; cbn.

Ltac run_in H :=
  cbv beta iota zeta delta
    [bind ret throw emit with_output with_error with_promise
     console_log console_warn console_error spawn] in H;
  cbn in H.

Section Dispatch.

Lemma dispatch_extract_settled (events : list ChildEvent) :
  forall l tr, promise l <> Pending ->
  exists l', dispatch extract_on events l tr = (Normal l', tr)
             /\ promise l' = promise l.
Proof.
  induction events as [|ev rest IH]; intros [o er p] tr Hp; cbn in *.
  - eexists; split; reflexivity.
  - destruct ev as [d|d|code|err]; run.
    + apply (IH {| output := o ++ d; error := er; promise := p |}), Hp.
    + apply (IH {| output := o; error := er ++ d; promise := p |}), Hp.
    + destruct (code_is_zero code), p; try congruence; run;
        match goal with
        | |- context [dispatch _ _ ?l _] =>
            destruct (IH l tr) as (l' & E1 & E2); [cbn; congruence|]
        end; exists l'; (split; [exact E1 | exact E2]).
    + destruct p; try congruence; run;
        match goal with
        | |- context [dispatch _ _ ?l _] =>
            destruct (IH l tr) as (l' & E1 & E2); [cbn; congruence|]
        end; exists l'; (split; [exact E1 | exact E2]).
Qed.

Lemma dispatch_extract (events : list ChildEvent) :
  forall l tr, promise l = Pending ->
  exists l', dispatch extract_on events l tr = (Normal l', tr)
    /\ promise l' =
       match settledBy events with
       | Some (Close code) =>
           if code_is_zero code
           then Resolved (trim (output l ++ stdoutBefore events))
           else Rejected (MkError (lit "Python script failed: "
                                     ++ error l ++ stderrBefore events))
       | Some (ChildError err) =>
           Rejected (MkError (lit "Failed to start Python process: "
                                ++ message err))
       | _ => Pending
       end.
Proof.
  induction events as [|ev rest IH]; intros [o er p] tr Hp; cbn in *; subst p.
  - eexists; split; reflexivity.
  - destruct ev as [d|d|code|err]; run.
    + destruct (IH {| output := o ++ d; error := er; promise := Pending |} tr
                  eq_refl) as (l' & E1 & E2).
      exists l'; split; [exact E1|].
      rewrite E2; cbn. rewrite <- app_assoc. reflexivity.
    + destruct (IH {| output := o; error := er ++ d; promise := Pending |} tr
                  eq_refl) as (l' & E1 & E2).
      exists l'; split; [exact E1|].
      rewrite E2; cbn. rewrite <- app_assoc. reflexivity.
    + destruct (code_is_zero code); run;
        match goal with
        | |- context [dispatch _ _ ?l _] =>
            destruct (dispatch_extract_settled rest l tr)
              as (l' & E1 & E2); [cbn; congruence|]
        end; exists l'; (split; [exact E1|]);
        rewrite E2; cbn; rewrite app_nil_r; reflexivity.
    + match goal with
      | |- context [dispatch _ _ ?l _] =>
          destruct (dispatch_extract_settled rest l tr)
            as (l' & E1 & E2); [cbn; congruence|]
      end; exists l'; (split; [exact E1|]); rewrite E2; reflexivity.
Qed.

Lemma dispatch_preprocess_settled (text : jsstring) (events : list ChildEvent) :
  forall l tr, promise l <> Pending ->
  exists l' logs,
    dispatch (preprocess_on text) events l tr = (Normal l', tr ++ logs)
    /\ forallb isConsole logs = true
    /\ promise l' = promise l.
Proof.
  induction events as [|ev rest IH]; intros [o er p] tr Hp; cbn in *.
  - exists {| output := o; error := er; promise := p |}, [].
    rewrite app_nil_r. repeat split.
  - destruct ev as [d|d|code|err]; run.
    + apply (IH {| output := o ++ d; error := er; promise := p |}), Hp.
    + destruct (IH {| output := o; error := er ++ d; promise := p |}
                  (tr ++ [ConsoleLog [VString (lit "Python stderr:"); VString d]])
                  Hp) as (l' & logs & E1 & E2 & E3).
      exists l', (ConsoleLog [VString (lit "Python stderr:"); VString d] :: logs).
      rewrite E1, <- app_assoc. repeat split; assumption.
    + destruct (code_is_zero code), p; try congruence; run;
        match goal with
        | |- context [dispatch _ _ ?l (?t ++ [?a] ++ [?b])] =>
            destruct (IH l (t ++ [a] ++ [b])) as (l' & logs & E1 & E2 & E3);
            [cbn; congruence|]; exists l', (a :: b :: logs)
        | |- context [dispatch _ _ ?l ((?t ++ [?a]) ++ [?b])] =>
            destruct (IH l ((t ++ [a]) ++ [b])) as (l' & logs & E1 & E2 & E3);
            [cbn; congruence|]; exists l', (a :: b :: logs)
        end; rewrite E1, <- !app_assoc; repeat split; assumption.
    + destruct p; try congruence; run;
        match goal with
        | |- context [dispatch _ _ ?l (?t ++ [?a])] =>
            destruct (IH l (t ++ [a])) as (l' & logs & E1 & E2 & E3);
            [cbn; congruence|]; exists l', (a :: logs)
        end; rewrite E1, <- !app_assoc; repeat split; assumption.
Qed.

Lemma dispatch_preprocess (text : jsstring) (events : list ChildEvent) :
  forall l tr, promise l = Pending ->
  exists l' logs,
    dispatch (preprocess_on text) events l tr = (Normal l', tr ++ logs)
    /\ forallb isConsole logs = true
    /\ promise l' =
       match settledBy events with
       | Some (Close code) =>
           if code_is_zero code
           then Resolved (trim (output l ++ stdoutBefore events))
           else Resolved text
       | Some (ChildError _) => Resolved text
       | _ => Pending
       end.
Proof.
  induction events as [|ev rest IH]; intros [o er p] tr Hp; cbn in *; subst p.
  - exists {| output := o; error := er; promise := Pending |}, [].
    rewrite app_nil_r. repeat split.
  - destruct ev as [d|d|code|err]; run.
    + destruct (IH {| output := o ++ d; error := er; promise := Pending |} tr
                  eq_refl) as (l' & logs & E1 & E2 & E3).
      exists l', logs. repeat split; try assumption.
      rewrite E3; cbn. rewrite <- app_assoc. reflexivity.
    + destruct (IH {| output := o; error := er ++ d; promise := Pending |}
                  (tr ++ [ConsoleLog [VString (lit "Python stderr:"); VString d]])
                  eq_refl) as (l' & logs & E1 & E2 & E3).
      exists l', (ConsoleLog [VString (lit "Python stderr:"); VString d] :: logs).
      rewrite E1, <- app_assoc. repeat split; assumption.
    + destruct (code_is_zero code); run;
        match goal with
        | |- context [dispatch _ _ ?l ((?t ++ [?a]) ++ [?b])] =>
            destruct (dispatch_preprocess_settled text rest l ((t ++ [a]) ++ [b]))
              as (l' & logs & E1 & E2 & E3);
            [cbn; congruence|]; exists l', (a :: b :: logs)
        end; rewrite E1, E3, <- !app_assoc; cbn; rewrite ?app_nil_r;
        repeat split; assumption.
    + match goal with
      | |- context [dispatch _ _ ?l (?t ++ [?a])] =>
          destruct (dispatch_preprocess_settled text rest l (t ++ [a]))
            as (l' & logs & E1 & E2 & E3);
          [cbn; congruence|]; exists l', (a :: logs)
      end; rewrite E1, E3, <- !app_assoc; repeat split; assumption.
Qed.

(** Whatever the promise, the listeners of [preprocessText] only write to
    the console, and what they write does not depend on what was done
    before. *)
Lemma dispatch_preprocess_logs (text : jsstring) (events : list ChildEvent) :
  forall l, exists l' logs,
    forallb isConsole logs = true
    /\ forall tr, dispatch (preprocess_on text) events l tr
                  = (Normal l', tr ++ logs).
Proof.
  induction events as [|ev rest IH]; intros [o er p].
  - exists {| output := o; error := er; promise := p |}, [].
    split; [reflexivity|]. intros tr. rewrite app_nil_r. reflexivity.
  - destruct ev as [d|d|code|err].
    + destruct (IH {| output := o ++ d; error := er; promise := p |})
        as (l' & logs & H1 & H2).
      exists l', logs. split; [exact H1|]. intros tr. run. apply H2.
    + destruct (IH {| output := o; error := er ++ d; promise := p |})
        as (l' & logs & H1 & H2).
      exists l', (ConsoleLog [VString (lit "Python stderr:"); VString d] :: logs).
      split; [exact H1|]. intros tr. run. rewrite H2, <- app_assoc. reflexivity.
    + destruct (code_is_zero code) eqn:Z.
      * destruct (IH {| output := o; error := er;
                        promise := resolve (trim o) p |})
          as (l' & logs & H1 & H2).
        exists l',
          (ConsoleLog [VString (lit "Preprocessing completed with code: "
                                  ++ code_toString code)]
           :: ConsoleLog [VString (lit "Preprocessing successful")] :: logs).
        split; [exact H1|]. intros tr. run. rewrite Z. run.
        rewrite H2, <- !app_assoc. reflexivity.
      * destruct (IH {| output := o; error := er; promise := resolve text p |})
          as (l' & logs & H1 & H2).
        exists l',
          (ConsoleLog [VString (lit "Preprocessing completed with code: "
                                  ++ code_toString code)]
           :: ConsoleWarn
                [VString (lit "Preprocessing failed, using original text:");
                 VString er] :: logs).
        split; [exact H1|]. intros tr. run. rewrite Z. run.
        rewrite H2, <- !app_assoc. reflexivity.
    + destruct (IH {| output := o; error := er; promise := resolve text p |})
        as (l' & logs & H1 & H2).
      exists l',
        (ConsoleWarn
           [VString (lit "Preprocessing error, using original text:");
            VString (message err)] :: logs).
      split; [exact H1|]. intros tr. run. rewrite H2, <- !app_assoc. reflexivity.
Qed.

(** Cutting the events at the settling one changes nothing to what
    settles the promise. *)
Lemma until_settled_same (events : list ChildEvent) :
  settledBy (until_settled events) = settledBy events
  /\ stdoutBefore (until_settled events) = stdoutBefore events
  /\ stderrBefore (until_settled events) = stderrBefore events.
Proof.
  induction events as [|ev rest (IH1 & IH2 & IH3)]; [repeat split|].
  destruct ev as [d|d|code|err]; cbn; rewrite ?IH1, ?IH2, ?IH3; repeat split.
Qed.

Lemma until_after_settled (events : list ChildEvent) :
  until_settled events ++ after_settled events = events.
Proof.
  induction events as [|ev rest IH]; [reflexivity|].
  destruct ev as [d|d|code|err]; cbn; rewrite ?IH; reflexivity.
Qed.

Lemma extractTextFromFile_run (env : Env) (path : jsstring) (tr : list Effect) :
  extractTextFromFile env path tr =
  await (extractTextFromFile_promise env)
    (tr ++ [ChildSpawn (lit "python3") [extract_script env; path]]).
Proof.
  unfold extractTextFromFile, extractTextFromFile_promise, extract_script.
  destruct (extract_child env) as [e|events]; run; [reflexivity|].
  destruct (dispatch_extract (until_settled events) listening
              (tr ++ [ChildSpawn (lit "python3")
                        [join [process_cwd env; lit "scripts";
                               lit "extract_text.py"]; path]]) eq_refl)
    as (l' & E1 & E2).
  rewrite E1, E2. unfold extract_promise.
  destruct (until_settled_same events) as (-> & -> & ->). reflexivity.
Qed.

Lemma preprocessText_run (env : Env) (text : jsstring) (tr : list Effect) :
  exists logs,
    forallb isConsole logs = true
    /\ preprocessText env text tr =
       await (preprocessText_promise env text)
         (tr ++ ConsoleLog [VString (lit "Starting preprocessing...")]
             :: ChildSpawn (lit "python3") [anonymize_script env; text]
             :: logs).
Proof.
  unfold preprocessText, preprocessText_promise, anonymize_script.
  destruct (anonymize_child env) as [e|events]; run.
  { exists []. split; [reflexivity|]. rewrite <- app_assoc. reflexivity. }
  match goal with
  | |- context [dispatch _ _ _ ?t] =>
      destruct (dispatch_preprocess text (until_settled events) listening t
                  eq_refl) as (l' & logs & E1 & E2 & E3)
  end.
  exists logs. split; [exact E2|].
  rewrite E1, E3, <- !app_assoc. unfold preprocess_promise.
  destruct (until_settled_same events) as (-> & -> & _). reflexivity.
Qed.

Lemma dispatch_app (on : ChildEvent -> Listener -> M Listener)
  (a b : list ChildEvent) :
  forall l tr,
    dispatch on (a ++ b) l tr
    = (l' <- dispatch on a l ;; dispatch on b l') tr.
Proof.
  induction a as [|ev a IH]; intros l tr; [reflexivity|].
  cbn [app dispatch]. unfold bind at 1 2 3.
  destruct (on ev l tr) as [[l'|e|] tr']; [apply IH | reflexivity ..].
Qed.

(** Nothing is lost by cutting the events in two: the listeners of
    [preprocessText] make of the events up to the settling one, then of
    the later ones, what they make of them all. *)
Lemma preprocessText_late_is_the_rest (env : Env) (text : jsstring)
  (tr : list Effect) :
  snd (dispatch (preprocess_on text) (anonymize_events env) listening tr)
  = snd (preprocessText_late env text
           (snd (dispatch (preprocess_on text)
                   (until_settled (anonymize_events env)) listening tr))).
Proof.
  unfold preprocessText_late, listener_after.
  rewrite <- (until_after_settled (anonymize_events env)) at 1.
  rewrite dispatch_app.
  destruct (dispatch_preprocess_logs text
              (until_settled (anonymize_events env)) listening)
    as (l' & logs & _ & H).
  unfold bind at 1. rewrite !H. cbn [fst snd].
  destruct (dispatch_preprocess_logs text
              (after_settled (anonymize_events env)) l')
    as (l'' & late & _ & H').
  run. rewrite !H'. reflexivity.
Qed.

Lemma preprocessText_late_run (env : Env) (text : jsstring) :
  exists late,
    forallb isConsole late = true
    /\ forall tr, preprocessText_late env text tr = (Normal tt, tr ++ late).
Proof.
  unfold preprocessText_late.
  destruct (dispatch_preprocess_logs text (after_settled (anonymize_events env))
              (listener_after (preprocess_on text)
                 (until_settled (anonymize_events env)) listening))
    as (l' & late & H1 & H2).
  exists late. split; [exact H1|]. intros tr. run. rewrite H2. reflexivity.
Qed.

End Dispatch.

Arguments extractTextFromFile : simpl never.
Arguments preprocessText : simpl never.
Arguments tempFilePath : simpl never.
Arguments unlink : simpl never.
Arguments writeFile : simpl never.
Arguments during : simpl never.
Arguments preprocessText_late : simpl never.

Lemma jsstring_eqb_eq (a b : jsstring) : jsstring_eqb a b = true <-> a = b.
Proof.
  revert b. induction a as [|x a IH]; intros [|y b]; cbn;
    try (split; (reflexivity || discriminate)).
  rewrite andb_true_iff, N.eqb_eq, IH. split; [intros [-> ->] | intros [= -> ->]]; auto.
Qed.

Lemma jsstring_eqb_refl (a : jsstring) : jsstring_eqb a a = true.
Proof. apply jsstring_eqb_eq. reflexivity. Qed.

Lemma console_unlinked (logs : list Effect) :
  forallb isConsole logs = true -> unlinked logs = [].
Proof.
  induction logs as [|e logs IH]; cbn; [reflexivity|].
  intros H. apply andb_prop in H as [He Hl].
  destruct e; try discriminate; cbn; auto.
Qed.

Lemma console_actions (logs : list Effect) :
  forallb isConsole logs = true -> actions logs = [].
Proof.
  induction logs as [|e logs IH]; cbn; [reflexivity|].
  intros H. apply andb_prop in H as [He Hl].
  rewrite He. cbn. auto.
Qed.

Lemma unlinked_app (a b : list Effect) :
  unlinked (a ++ b) = unlinked a ++ unlinked b.
Proof. apply flat_map_app. Qed.

Lemma actions_app (a b : list Effect) : actions (a ++ b) = actions a ++ actions b.
Proof. apply filter_app. Qed.

Lemma actions_cons (e : Effect) (tr : list Effect) :
  actions (e :: tr) = if isConsole e then actions tr else e :: actions tr.
Proof. unfold actions; cbn. destruct (isConsole e); reflexivity. Qed.

Lemma unlinked_cons (e : Effect) (tr : list Effect) :
  unlinked (e :: tr) =
  match e with FsUnlink p => p :: unlinked tr | _ => unlinked tr end.
Proof. destruct e; reflexivity. Qed.

Arguments actions : simpl never.
Arguments unlinked : simpl never.


Lemma unlink_run (env : Env) (path : jsstring) (tr : list Effect) :
  unlink env path tr =
  (match unlink_outcome env (List.length (unlinked tr)) with
   | None => Normal tt
   | Some e => Throw e
   end, tr ++ [FsUnlink path]).
Proof.
  unfold unlink. destruct (unlink_outcome env _); reflexivity.
Qed.

(** The first deletion, and what reaches the console while it is awaited. *)
Lemma unlink_during_late (env : Env) (path text : jsstring) :
  exists late,
    forallb isConsole late = true
    /\ forall tr,
         during (unlink env path) (preprocessText_late env text) tr =
         (match unlink_outcome env (List.length (unlinked tr)) with
          | None => Normal tt
          | Some e => Throw e
          end, tr ++ FsUnlink path :: late).
Proof.
  destruct (preprocessText_late_run env text) as (late & H1 & H2).
  exists late. split; [exact H1|]. intros tr.
  unfold during. rewrite unlink_run, H2. cbn [snd].
  rewrite <- app_assoc. reflexivity.
Qed.

Section Valid.

Variables (env : Env) (fd : FormData) (file : File).
Hypothesis Hform : request_formData env = inl fd.
Hypothesis Hfile : FormData_get fd (lit "file") = Some (EntryFile file).
Hypothesis Htype : type file = lit "application/pdf".
Hypothesis Hsize : size file <= 5 * 1024 * 1024.

Let path := tempFilePath env file.
Let written := FsWriteFile path (arrayBuffer file).
Let extracting := ChildSpawn (lit "python3") [extract_script env; path].

(** Every run of a request that passes validation. *)
Lemma POST_valid :
  match writeFile_outcome env with
  | Some e => POST env [] = (Normal response_500, [written; error_logged e])
  | None =>
      match extractTextFromFile_promise env with
      | Pending => POST env [] = (NeverSettles, [written; extracting])
      | Rejected e =>
          POST env [] =
          (Normal response_500,
           [written; extracting; FsUnlink path;
            error_logged (first_error e (unlink_outcome env 0%nat))])
      | Resolved raw =>
          exists mid late,
            actions mid = [ChildSpawn (lit "python3") [anonymize_script env; raw]]
            /\ unlinked mid = []
            /\ forallb isConsole late = true
            /\ match preprocessText_promise env raw with
               | Pending => POST env [] = (NeverSettles, [written; extracting] ++ mid)
               | Rejected e =>
                   POST env [] =
                   (Normal response_500,
                    [written; extracting] ++ mid ++
                    [FsUnlink path;
                     error_logged (first_error e (unlink_outcome env 0%nat))])
               | Resolved text =>
                   match unlink_outcome env 0%nat with
                   | None =>
                       POST env [] =
                       (Normal (response_200 text raw file),
                        [written; extracting] ++ mid ++ FsUnlink path :: late)
                   | Some e =>
                       POST env [] =
                       (Normal response_500,
                        [written; extracting] ++ mid ++
                        FsUnlink path :: late ++
                        [FsUnlink path;
                         error_logged (first_error e (unlink_outcome env 1%nat))])
                   end
               end
      end
  end.
Proof.
  assert (Hgt : (size file >? 5242880) = false)
    by (rewrite Z.gtb_ltb; apply Z.ltb_ge; exact Hsize).
  remember (POST env []) as R eqn:ER.
  unfold POST, try_catch, formData in ER. rewrite Hform in ER.
  run_in ER. rewrite Hfile, Htype, jsstring_eqb_refl in ER.
  cbn in ER. rewrite Hgt in ER. fold path in ER.
  unfold writeFile in ER. run_in ER. fold written in ER.
  destruct (writeFile_outcome env) as [e|].
  { subst R. reflexivity. }
  rewrite extractTextFromFile_run in ER. fold extracting in ER.
  destruct (extractTextFromFile_promise env) as [|raw|e]; cbn in ER.
  - subst R. reflexivity.
  - destruct (preprocessText_run env raw [written; extracting])
      as (logs & Hlogs & Epre).
    rewrite Epre in ER. clear Epre.
    destruct (unlink_during_late env path raw) as (late & Hlate & Edur).
    destruct (preprocessText_promise env raw) as [|text|e].
    + exists (ConsoleLog [VString (lit "Starting preprocessing...")]
              :: ChildSpawn (lit "python3") [anonymize_script env; raw] :: logs),
             [].
      rewrite !actions_cons, !unlinked_cons; cbn [isConsole].
      rewrite (console_actions _ Hlogs), (console_unlinked _ Hlogs).
      repeat split. subst R. reflexivity.
    + set (shown :=
             [ConsoleLog [VString (lit "=== RAW EXTRACTED TEXT ===")];
              ConsoleLog [VString raw];
              ConsoleLog [VString (10%N :: lit "=== ANONYMIZED TEXT ===")];
              ConsoleLog [VString text];
              ConsoleLog [VString (lit "========================" ++ [10%N])]]).
      exists (ConsoleLog [VString (lit "Starting preprocessing...")]
              :: ChildSpawn (lit "python3") [anonymize_script env; raw]
              :: logs ++ shown), late.
      rewrite !actions_cons, !unlinked_cons; cbn [isConsole].
      rewrite actions_app, unlinked_app.
      rewrite (console_actions _ Hlogs), (console_unlinked _ Hlogs).
      split; [reflexivity|split; [reflexivity|split; [exact Hlate|]]].
      cbn in ER. rewrite <- !app_assoc in ER. cbn [app] in ER.
      fold shown in ER. rewrite Edur in ER.
      rewrite !unlinked_cons, unlinked_app, (console_unlinked _ Hlogs) in ER.
      change (unlinked shown) with (@nil jsstring) in ER.
      subst written extracting. cbn in ER |- *.
      destruct (unlink_outcome env 0%nat) as [e|].
      * rewrite unlink_run in ER.
        repeat (rewrite ?unlinked_cons, ?unlinked_app in ER).
        rewrite (console_unlinked _ Hlogs), (console_unlinked _ Hlate) in ER.
        change (unlinked shown) with (@nil jsstring) in ER.
        cbn in ER.
        subst R.
        destruct (unlink_outcome env 1%nat); cbn;
          rewrite <- ?app_assoc; cbn; rewrite <- ?app_assoc; reflexivity.
      * subst R. cbn. rewrite <- ?app_assoc. reflexivity.
    + exists (ConsoleLog [VString (lit "Starting preprocessing...")]
              :: ChildSpawn (lit "python3") [anonymize_script env; raw] :: logs),
             [].
      rewrite !actions_cons, !unlinked_cons; cbn [isConsole].
      rewrite (console_actions _ Hlogs), (console_unlinked _ Hlogs).
      split; [reflexivity|split; [reflexivity|split; [reflexivity|]]].
      cbn in ER. rewrite unlink_run in ER.
      rewrite !unlinked_cons, (console_unlinked _ Hlogs) in ER.
      subst written extracting. cbn in ER |- *.
      subst R.
      destruct (unlink_outcome env 0%nat); cbn;
        rewrite <- ?app_assoc; reflexivity.
  - rewrite unlink_run in ER. subst written extracting.
    rewrite !unlinked_cons in ER.
    change (unlinked []) with (@nil jsstring) in ER. cbn in ER.
    subst R. destruct (unlink_outcome env 0%nat); reflexivity.
Qed.

End Valid.

(** ** Requests that do not reach the temp file *)

Lemma valid_dec (file : File) : {valid file} + {~ valid file}.
Proof.
  unfold valid.
  destruct (list_eq_dec N.eq_dec (type file) (lit "application/pdf"));
    destruct (Z_le_dec (size file) (5 * 1024 * 1024)); tauto.
Qed.

Lemma FormData_get_absent (fd : FormData) (key : jsstring) :
  ~ In key (map fst fd) -> FormData_get fd key = None.
Proof.
  induction fd as [|[k v] fd IH]; cbn; [reflexivity|].
  intros H. destruct (jsstring_eqb k key) eqn:E.
  - apply jsstring_eqb_eq in E. tauto.
  - apply IH. tauto.
Qed.

Lemma POST_formData_rejects (env : Env) (e : JsError) :
  request_formData env = inr e ->
  POST env [] = (Normal response_500, [error_logged e]).
Proof.
  intros H. unfold POST, try_catch, formData. rewrite H. reflexivity.
Qed.

Lemma POST_no_file (env : Env) (fd : FormData) :
  request_formData env = inl fd ->
  FormData_get fd (lit "file") = None ->
  POST env [] = (Normal (response_400 "No file provided"), []).
Proof.
  intros H G. unfold POST, try_catch, formData. rewrite H. run.
  rewrite G. reflexivity.
Qed.

Lemma POST_string_field (env : Env) (fd : FormData) (s : jsstring) :
  request_formData env = inl fd ->
  FormData_get fd (lit "file") = Some (EntryString s) ->
  POST env [] =
  (Normal (response_400
             match s with
             | [] => "No file provided"
             | _ => "Invalid file type. Only PDF files are allowed."
             end), []).
Proof.
  intros H G. unfold POST, try_catch, formData. rewrite H. run.
  rewrite G. destruct s; reflexivity.
Qed.

Lemma POST_wrong_type (env : Env) (file : File) :
  uploaded env file ->
  type file <> lit "application/pdf" ->
  POST env [] =
  (Normal (response_400 "Invalid file type. Only PDF files are allowed."), []).
Proof.
  intros (fd & H & G) T. unfold POST, try_catch, formData. rewrite H. run.
  rewrite G.
  destruct (jsstring_eqb (type file) (lit "application/pdf")) eqn:E.
  - apply jsstring_eqb_eq in E. contradiction.
  - reflexivity.
Qed.

Lemma POST_too_large (env : Env) (file : File) :
  uploaded env file ->
  type file = lit "application/pdf" ->
  size file > 5 * 1024 * 1024 ->
  POST env [] =
  (Normal (response_400 "File too large. Maximum size is 5MB."), []).
Proof.
  intros (fd & H & G) T S. unfold POST, try_catch, formData. rewrite H. run.
  rewrite G, T, jsstring_eqb_refl. cbn [negb].
  assert (Hgt : (size file >? 5242880) = true)
    by (rewrite Z.gtb_ltb; apply Z.ltb_lt; lia).
  rewrite Hgt. reflexivity.
Qed.

(** A request that is not a valid upload is answered at once, with a
    status other than 200, and nothing is written, spawned or deleted. *)
Lemma POST_not_validated (env : Env) :
  (forall file, uploaded env file -> ~ valid file) ->
  exists r tr,
    POST env [] = (Normal r, tr)
    /\ (status r = 400 \/ status r = 500)
    /\ actions tr = [] /\ unlinked tr = [].
Proof.
  intros Hinv.
  destruct (request_formData env) as [fd|e] eqn:H.
  - destruct (FormData_get fd (lit "file")) as [[file|s]|] eqn:G.
    + assert (U : uploaded env file) by (exists fd; auto).
      destruct (list_eq_dec N.eq_dec (type file) (lit "application/pdf"))
        as [T|T].
      * destruct (Z_le_dec (size file) (5 * 1024 * 1024)) as [S|S].
        { destruct (Hinv file U). split; assumption. }
        eexists _, _. split; [apply (POST_too_large env file U T); lia|].
        cbn. auto.
      * eexists _, _. split; [apply (POST_wrong_type env file U T)|].
        cbn. auto.
    + eexists _, _. split; [apply (POST_string_field env fd s H G)|].
      cbn. auto.
    + eexists _, _. split; [apply (POST_no_file env fd H G)|]. cbn. auto.
  - eexists _, _. split; [apply (POST_formData_rejects env e H)|]. cbn. auto.
Qed.

Lemma validated_dec (env : Env) :
  (exists file, uploaded env file /\ valid file)
  \/ (forall file, uploaded env file -> ~ valid file).
Proof.
  destruct (request_formData env) as [fd|e] eqn:H.
  - destruct (FormData_get fd (lit "file")) as [[file|s]|] eqn:G.
    + destruct (valid_dec file) as [V|V].
      * left. exists file. split; [exists fd; auto | exact V].
      * right. intros g (fd' & H' & G'). congruence.
    + right. intros g (fd' & H' & G'). congruence.
    + right. intros g (fd' & H' & G'). congruence.
  - right. intros g (fd' & H' & G'). congruence.
Qed.

Lemma POST_validated (env : Env) (file : File) :
  uploaded env file -> valid file ->
  let path := tempFilePath env file in
  let written := FsWriteFile path (arrayBuffer file) in
  let extracting := ChildSpawn (lit "python3") [extract_script env; path] in
  match writeFile_outcome env with
  | Some e => POST env [] = (Normal response_500, [written; error_logged e])
  | None =>
      match extractTextFromFile_promise env with
      | Pending => POST env [] = (NeverSettles, [written; extracting])
      | Rejected e =>
          POST env [] =
          (Normal response_500,
           [written; extracting; FsUnlink path;
            error_logged (first_error e (unlink_outcome env 0%nat))])
      | Resolved raw =>
          exists mid late,
            actions mid = [ChildSpawn (lit "python3") [anonymize_script env; raw]]
            /\ unlinked mid = []
            /\ forallb isConsole late = true
            /\ match preprocessText_promise env raw with
               | Pending => POST env [] = (NeverSettles, [written; extracting] ++ mid)
               | Rejected e =>
                   POST env [] =
                   (Normal response_500,
                    [written; extracting] ++ mid ++
                    [FsUnlink path;
                     error_logged (first_error e (unlink_outcome env 0%nat))])
               | Resolved text =>
                   match unlink_outcome env 0%nat with
                   | None =>
                       POST env [] =
                       (Normal (response_200 text raw file),
                        [written; extracting] ++ mid ++ FsUnlink path :: late)
                   | Some e =>
                       POST env [] =
                       (Normal response_500,
                        [written; extracting] ++ mid ++
                        FsUnlink path :: late ++
                        [FsUnlink path;
                         error_logged (first_error e (unlink_outcome env 1%nat))])
                   end
               end
      end
  end.
Proof.
  intros (fd & H & G) (T & S). exact (POST_valid env fd file H G T S).
Qed.

Lemma code_is_zero_iff (code : option Z) :
  code_is_zero code = true <-> code = Some 0.
Proof.
  destruct code as [c|]; cbn.
  - rewrite Z.eqb_eq. split; congruence.
  - split; discriminate.
Qed.

Lemma extract_resolved (events : list ChildEvent) (raw : jsstring) :
  extract_promise events = Resolved raw <->
  settledBy events = Some (Close (Some 0)) /\ raw = trim (stdoutBefore events).
Proof.
  unfold extract_promise.
  destruct (settledBy events) as [[d|d|code|err]|];
    try (split; [discriminate|intros [[=] _]]).
  destruct (code_is_zero code) eqn:E.
  - apply code_is_zero_iff in E. subst code.
    split; [intros [= <-]; auto | intros [_ ->]; reflexivity].
  - split; [discriminate|]. intros [[= ->] _]. discriminate.
Qed.

Lemma extract_rejected (events : list ChildEvent) :
  (exists e, extract_promise events = Rejected e) <->
  (exists err, settledBy events = Some (ChildError err))
  \/ (exists code, settledBy events = Some (Close code) /\ code <> Some 0).
Proof.
  unfold extract_promise.
  destruct (settledBy events) as [[d|d|code|err]|].
  - split; [intros [e [=]] | intros [[e [=]] | (c & [=] & _)]].
  - split; [intros [e [=]] | intros [[e [=]] | (c & [=] & _)]].
  - destruct (code_is_zero code) eqn:E.
    + apply code_is_zero_iff in E.
      split; [intros [e [=]] | intros [[e [=]] | (c & [= <-] & N)]; contradiction].
    + split; [|intros _; eexists; reflexivity].
      intros _. right. exists code. split; [reflexivity|].
      intros ->. discriminate.
  - split; [|intros _; eexists; reflexivity].
    intros _. left. exists err. reflexivity.
  - split; [intros [e [=]] | intros [[e [=]] | (c & [=] & _)]].
Qed.

Lemma preprocess_exit_0 (text : jsstring) (events : list ChildEvent) :
  settledBy events = Some (Close (Some 0)) ->
  preprocess_promise text events = Resolved (trim (stdoutBefore events)).
Proof. unfold preprocess_promise. intros ->. reflexivity. Qed.


Lemma preprocess_pending_iff (text : jsstring) (events : list ChildEvent) :
  preprocess_promise text events = Pending <-> settledBy events = None.
Proof.
  unfold preprocess_promise.
  assert (H : forall ev, settledBy events = Some ev -> isSettling ev = true).
  { induction events as [|a evs IH]; cbn; [discriminate|].
    destruct (isSettling a) eqn:E; [intros ev [= <-]; exact E | exact IH]. }
  destruct (settledBy events) as [[d|d|code|err]|];
    try (specialize (H _ eq_refl); discriminate);
    try (destruct (code_is_zero code)); split; (discriminate || reflexivity).
Qed.

Lemma extract_pending_iff (events : list ChildEvent) :
  extract_promise events = Pending <-> settledBy events = None.
Proof.
  unfold extract_promise.
  assert (H : forall ev, settledBy events = Some ev -> isSettling ev = true).
  { induction events as [|a evs IH]; cbn; [discriminate|].
    destruct (isSettling a) eqn:E; [intros ev [= <-]; exact E | exact IH]. }
  destruct (settledBy events) as [[d|d|code|err]|];
    try (specialize (H _ eq_refl); discriminate);
    try (destruct (code_is_zero code)); split; (discriminate || reflexivity).
Qed.

(** A call settles as its child does, unless [spawn] threw. *)
Lemma extractTextFromFile_resolved (env : Env) (raw : jsstring) :
  extractTextFromFile_promise env = Resolved raw
  <-> extract_promise (extract_events env) = Resolved raw.
Proof.
  unfold extractTextFromFile_promise, extract_events.
  destruct (extract_child env); [split; discriminate | reflexivity].
Qed.

Lemma extractTextFromFile_rejected (env : Env) (e : JsError) :
  extractTextFromFile_promise env = Rejected e
  <-> extract_child env = SpawnThrows e
      \/ extract_promise (extract_events env) = Rejected e.
Proof.
  unfold extractTextFromFile_promise, extract_events.
  destruct (extract_child env) as [e'|events]; cbn [events_of].
  - split; [intros [= ->]; auto | intros [[= ->]|H]; [reflexivity|discriminate]].
  - split; [auto | intros [H|H]; [discriminate | exact H]].
Qed.

Lemma extractTextFromFile_pending (env : Env) :
  extractTextFromFile_promise env = Pending
  <-> exists events, extract_child env = Spawned events
                     /\ settledBy events = None.
Proof.
  unfold extractTextFromFile_promise.
  destruct (extract_child env) as [e|events].
  - split; [discriminate | intros (evs & [=] & _)].
  - rewrite extract_pending_iff. split.
    + intros H. exists events. auto.
    + intros (evs & [= <-] & H). exact H.
Qed.

Lemma preprocessText_resolved (env : Env) (raw text : jsstring) :
  preprocessText_promise env raw = Resolved text
  <-> preprocess_promise raw (anonymize_events env) = Resolved text.
Proof.
  unfold preprocessText_promise, anonymize_events.
  destruct (anonymize_child env); [split; discriminate | reflexivity].
Qed.


Lemma preprocessText_pending (env : Env) (raw : jsstring) :
  preprocessText_promise env raw = Pending
  <-> exists events, anonymize_child env = Spawned events
                     /\ settledBy events = None.
Proof.
  unfold preprocessText_promise.
  destruct (anonymize_child env) as [e|events].
  - split; [discriminate | intros (evs & [=] & _)].
  - rewrite preprocess_pending_iff. split.
    + intros H. exists events. auto.
    + intros (evs & [= <-] & H). exact H.
Qed.

(** The only way to a 200. *)
Lemma success_inversion (env : Env) (r : Response) :
  completion env = Normal r -> status r = 200 ->
  exists file raw text,
    uploaded env file /\ valid file
    /\ writeFile_outcome env = None
    /\ extract_promise (extract_events env) = Resolved raw
    /\ preprocess_promise raw (anonymize_events env) = Resolved text
    /\ unlink_outcome env 0%nat = None
    /\ r = response_200 text raw file.
Proof.
  unfold completion. intros Hdone Hok.
  destruct (validated_dec env) as [(file & U & V)|N].
  - pose proof (POST_validated env file U V) as P. cbv zeta in P.
    destruct (writeFile_outcome env) eqn:W.
    { rewrite P in Hdone. cbn in Hdone. injection Hdone as <-. discriminate. }
    destruct (extractTextFromFile_promise env) as [|raw|e] eqn:Ex.
    + rewrite P in Hdone. discriminate.
    + destruct P as (mid & late & _ & _ & _ & P).
      destruct (preprocessText_promise env raw) as [|text|e] eqn:Pre.
      * rewrite P in Hdone. discriminate.
      * destruct (unlink_outcome env 0%nat) eqn:D.
        { rewrite P in Hdone. cbn in Hdone. injection Hdone as <-.
          discriminate. }
        rewrite P in Hdone. cbn in Hdone. injection Hdone as <-.
        apply extractTextFromFile_resolved in Ex.
        apply preprocessText_resolved in Pre.
        exists file, raw, text. repeat split; auto; apply V.
      * rewrite P in Hdone. cbn in Hdone. injection Hdone as <-. discriminate.
    + rewrite P in Hdone. cbn in Hdone. injection Hdone as <-. discriminate.
  - destruct (POST_not_validated env N) as (r' & tr & E & S & _).
    rewrite E in Hdone. cbn in Hdone. injection Hdone as ->.
    rewrite Hok in S. destruct S; discriminate.
Qed.

(** And every such way leads there. *)
Lemma success_intro (env : Env) (file : File) (raw text : jsstring) :
  uploaded env file -> valid file ->
  writeFile_outcome env = None ->
  extract_promise (extract_events env) = Resolved raw ->
  preprocess_promise raw (anonymize_events env) = Resolved text ->
  unlink_outcome env 0%nat = None ->
  completion env = Normal (response_200 text raw file).
Proof.
  intros U V W Ex Pre D.
  apply extractTextFromFile_resolved in Ex.
  apply preprocessText_resolved in Pre.
  pose proof (POST_validated env file U V) as P. cbv zeta in P.
  rewrite W, Ex in P. destruct P as (mid & late & _ & _ & _ & P).
  rewrite Pre, D in P. unfold completion. rewrite P. reflexivity.
Qed.

(** ** Paths *)

Section Paths.

Lemma split_nonempty (s : jsstring) : split s <> [].
Proof.
  induction s as [|c s IH]; cbn; [discriminate|].
  destruct (c =? SLASH)%N; [discriminate|].
  destruct (split s); [contradiction | discriminate].
Qed.

Lemma split_slashfree (s : jsstring) : ~ In SLASH s -> split s = [s].
Proof.
  induction s as [|c s IH]; cbn; [reflexivity|]. intros H.
  destruct (c =? SLASH)%N eqn:E.
  - apply N.eqb_eq in E. subst c. tauto.
  - rewrite IH by tauto. reflexivity.
Qed.

Lemma split_app (a b : jsstring) : split (a ++ SLASH :: b) = split a ++ split b.
Proof.
  induction a as [|c a IH]; cbn; [reflexivity|].
  destruct (c =? SLASH)%N; rewrite IH; [reflexivity|].
  destruct (split a) eqn:E; [destruct (split_nonempty a E) | reflexivity].
Qed.

Lemma normalizeSegments_app (allow : bool) (xs : list jsstring) :
  forall res, exists res',
    forall ys, normalizeSegments allow res (xs ++ ys)
               = normalizeSegments allow res' ys.
Proof.
  induction xs as [|seg xs IH]; intros res; cbn.
  - exists res. reflexivity.
  - destruct (isEmpty seg || isDot seg); [apply IH|].
    destruct (isDotDot seg); [|apply IH].
    destruct res as [|last res']; [apply IH|].
    destruct (isDotDot last); apply IH.
Qed.

Lemma plain_kept (seg : jsstring) :
  plain seg -> isEmpty seg = false /\ isDot seg = false /\ isDotDot seg = false.
Proof.
  intros (Hne & _ & Hd & Hdd). repeat split.
  - destruct seg; [contradiction | reflexivity].
  - unfold isDot. destruct (jsstring_eqb seg (lit ".")) eqn:E; [|reflexivity].
    apply jsstring_eqb_eq in E. contradiction.
  - unfold isDotDot. destruct (jsstring_eqb seg (lit "..")) eqn:E; [|reflexivity].
    apply jsstring_eqb_eq in E. contradiction.
Qed.

Lemma normalizeSegments_plain (allow : bool) (res : list jsstring)
  (seg : jsstring) (rest : list jsstring) :
  plain seg ->
  normalizeSegments allow res (seg :: rest)
  = normalizeSegments allow (seg :: res) rest.
Proof.
  intros H. destruct (plain_kept seg H) as (E1 & E2 & E3).
  cbn. rewrite E1, E2, E3. reflexivity.
Qed.

Lemma intercalate_cons (k : jsstring) (rest : list jsstring) :
  rest <> [] -> intercalate (k :: rest) = k ++ SLASH :: intercalate rest.
Proof. destruct rest; [contradiction | reflexivity]. Qed.

Lemma intercalate_snoc (K : list jsstring) :
  exists pre, forall seg, intercalate (K ++ [seg]) = pre ++ seg.
Proof.
  induction K as [|k K (pre & IH)].
  - exists []. reflexivity.
  - exists (k ++ SLASH :: pre). intros seg.
    rewrite <- app_comm_cons, intercalate_cons, IH, <- app_assoc.
    + reflexivity.
    + destruct K; discriminate.
Qed.

Lemma endsWithSlash_app (x seg : jsstring) :
  seg <> [] -> ~ In SLASH seg -> endsWithSlash (x ++ seg) = false.
Proof.
  intros Hne Hno. unfold endsWithSlash. rewrite rev_app_distr.
  destruct (rev seg) as [|c r] eqn:E.
  - apply (f_equal (@rev N)) in E. rewrite rev_involutive in E. contradiction.
  - cbn. apply N.eqb_neq. intros ->. apply Hno, in_rev. rewrite E. left. reflexivity.
Qed.

(** Joining a directory with a plain segment appends the segment to a
    prefix that the directory alone determines. *)
Lemma join_plain (dir : jsstring) :
  exists pre, forall seg, plain seg -> join [dir; seg] = pre ++ seg.
Proof.
  destruct dir as [|c dir].
  - exists []. intros seg H. pose proof H as (Hne & Hno & _).
    destruct seg as [|d seg]; [contradiction|].
    unfold join. cbn [filter isEmpty negb intercalate].
    unfold normalize.
    assert (Habs : startsWithSlash (d :: seg) = false).
    { cbn. apply N.eqb_neq. intros ->. apply Hno. left. reflexivity. }
    rewrite Habs, (split_slashfree _ Hno). cbn [negb].
    rewrite (normalizeSegments_plain _ _ _ _ H). cbn [normalizeSegments rev app intercalate].
    pose proof (endsWithSlash_app [] (d :: seg) Hne Hno) as Hend.
    cbn [app] in Hend. rewrite Hend. cbn. rewrite app_nil_r. reflexivity.
  - destruct (normalizeSegments_app (negb (c =? SLASH)%N) (split (c :: dir)) [])
      as (res & Hres).
    destruct (intercalate_snoc (rev res)) as (pre & Hpre).
    exists ((if (c =? SLASH)%N then [SLASH] else []) ++ pre).
    intros seg H. pose proof H as (Hne & Hno & _).
    destruct seg as [|d seg]; [contradiction|].
    unfold join. cbn [filter isEmpty negb intercalate].
    unfold normalize. cbn [app startsWithSlash].
    change (c :: dir ++ SLASH :: d :: seg) with ((c :: dir) ++ SLASH :: d :: seg).
    rewrite split_app, (split_slashfree _ Hno), Hres.
    rewrite (normalizeSegments_plain _ _ _ _ H).
    cbn [normalizeSegments rev]. rewrite Hpre.
    pose proof (endsWithSlash_app ((c :: dir) ++ [SLASH]) (d :: seg) Hne Hno)
      as Hend.
    rewrite <- app_assoc in Hend. cbn [app] in Hend |- *. rewrite Hend.
    destruct (pre ++ d :: seg) eqn:E.
    + destruct pre; discriminate.
    + rewrite <- E, app_nil_r, app_assoc. reflexivity.
Qed.

Lemma lit_inj (a b : string) : lit a = lit b -> a = b.
Proof.
  unfold lit. intros H.
  rewrite <- (string_of_list_ascii_of_string a),
          <- (string_of_list_ascii_of_string b).
  f_equal.
  revert H. generalize (list_ascii_of_string b).
  induction (list_ascii_of_string a) as [|x xs IH]; intros [|y ys]; cbn;
    try discriminate; [reflexivity|].
  intros [= Hxy Hrest]. f_equal; [|apply IH, Hrest].
  rewrite <- (ascii_N_embedding x), <- (ascii_N_embedding y), Hxy. reflexivity.
Qed.

Lemma uint_digits (d : Decimal.uint) :
  Forall isDigitOrMinus (lit (NilEmpty.string_of_uint d)).
Proof.
  induction d; cbn; constructor; auto; right; cbn; lia.
Qed.

Lemma Number_toString_digits (n : Z) :
  Forall isDigitOrMinus (Number_toString n).
Proof.
  unfold Number_toString.
  destruct (Z.to_int n) as [d|d]; cbn [NilZero.string_of_int].
  - destruct d; try apply (uint_digits (_ d)).
    cbn. constructor; [right; cbn; lia | constructor].
  - change (Forall isDigitOrMinus (45%N :: lit (NilZero.string_of_uint d))).
    constructor; [left; reflexivity|].
    destruct d; try apply (uint_digits (_ d)).
    cbn. constructor; [right; cbn; lia | constructor].
Qed.

Lemma to_int_not_nil (z : Z) :
  Z.to_int z <> Decimal.Pos Decimal.Nil /\ Z.to_int z <> Decimal.Neg Decimal.Nil.
Proof.
  destruct z as [|p|p]; cbn; split; try discriminate;
    intros [= H]; exact (DecimalPos.Unsigned.to_uint_nonnil p H).
Qed.

Lemma Number_toString_inj (a b : Z) :
  Number_toString a = Number_toString b -> a = b.
Proof.
  unfold Number_toString. intros H. apply lit_inj in H.
  apply (f_equal NilZero.int_of_string) in H.
  destruct (to_int_not_nil a) as [A1 A2], (to_int_not_nil b) as [B1 B2].
  rewrite !NilZero.isi in H by assumption.
  injection H as H. apply DecimalZ.to_int_inj, H.
Qed.

Lemma cut_at_marker (x : N) (l1 l2 r1 r2 : jsstring) :
  ~ In x l1 -> ~ In x l2 ->
  l1 ++ x :: r1 = l2 ++ x :: r2 -> l1 = l2 /\ r1 = r2.
Proof.
  revert l2. induction l1 as [|a l1 IH]; intros [|b l2] H1 H2; cbn in *.
  - intros [= ->]. auto.
  - intros [= -> _]. tauto.
  - intros [= -> _]. tauto.
  - intros [= -> E]. destruct (IH l2) as [-> ->]; auto.
Qed.

Lemma digits_exclude (c : N) (n : Z) :
  ~ isDigitOrMinus c -> ~ In c (Number_toString n).
Proof.
  intros Hc Hin.
  exact (Hc (proj1 (Forall_forall _ _) (Number_toString_digits n) c Hin)).
Qed.

Lemma temp_name_plain (now : Z) (filename : jsstring) :
  ~ In SLASH filename -> plain (temp_name now filename).
Proof.
  intros Hno. unfold plain, temp_name. repeat split; try discriminate.
  intros H. apply in_app_or in H as [H|H].
  - vm_compute in H. intuition discriminate.
  - apply in_app_or in H as [H|H].
    + revert H. apply digits_exclude. unfold isDigitOrMinus, SLASH. lia.
    + destruct H as [H|H]; [discriminate | contradiction].
Qed.

Lemma temp_name_inj (n1 n2 : Z) (f1 f2 : jsstring) :
  temp_name n1 f1 = temp_name n2 f2 -> n1 = n2 /\ f1 = f2.
Proof.
  unfold temp_name. intros H. apply app_inv_head in H.
  change (lit "_" ++ f1) with (95%N :: f1) in H.
  change (lit "_" ++ f2) with (95%N :: f2) in H.
  apply cut_at_marker in H.
  - destruct H as [H ->]. split; [apply Number_toString_inj, H | reflexivity].
  - apply digits_exclude. unfold isDigitOrMinus. lia.
  - apply digits_exclude. unfold isDigitOrMinus. lia.
Qed.

Lemma tempFilePath_join (env : Env) (file : File) :
  tempFilePath env file
  = join [tmpdir env; temp_name (Date_now env) (name file)].
Proof. reflexivity. Qed.

Lemma join_two (a b : jsstring) :
  a <> [] -> b <> [] -> join [a; b] = normalize (a ++ SLASH :: b).
Proof. destruct a, b; try contradiction. reflexivity. Qed.

Lemma normalize_absolute (p : jsstring) :
  normalize (SLASH :: p) =
  match intercalate (normalizeSegments false [] (split (SLASH :: p))) with
  | [] => lit "/"
  | q => SLASH :: q ++ (if endsWithSlash (SLASH :: p) then [SLASH] else [])
  end.
Proof.
  unfold normalize. cbn [startsWithSlash negb].
  rewrite N.eqb_refl. cbn [negb].
  destruct (intercalate _); reflexivity.
Qed.

Lemma normalizeSegments_pop (allow : bool) (last : jsstring)
  (res rest : list jsstring) :
  isDotDot last = false ->
  normalizeSegments allow (last :: res) (lit ".." :: rest)
  = normalizeSegments allow res rest.
Proof.
  intros H. cbn [normalizeSegments].
  change (isEmpty (lit "..") || isDot (lit "..")) with false.
  change (isDotDot (lit "..")) with true. cbv iota. rewrite H. reflexivity.
Qed.

Lemma traversal_escapes_tmp (now : Z) :
  join [lit "/tmp"; temp_name now (lit "x/../../etc/passwd")]
  = lit "/etc/passwd".
Proof.
  pose proof (temp_name_plain now (lit "x")) as Hplain.
  assert (Hx : ~ In SLASH (lit "x")) by (vm_compute; intuition discriminate).
  specialize (Hplain Hx).
  assert (E : temp_name now (lit "x/../../etc/passwd")
              = temp_name now (lit "x") ++ SLASH :: lit "../../etc/passwd").
  { unfold temp_name. rewrite <- !app_assoc. reflexivity. }
  rewrite E. clear E.
  generalize dependent (temp_name now (lit "x")). intros T Hplain.
  pose proof Hplain as (Hne & Hno & _).
  rewrite join_two; [|discriminate|destruct T; discriminate].
  change (lit "/tmp" ++ SLASH :: T ++ SLASH :: lit "../../etc/passwd")
    with (SLASH :: lit "tmp" ++ SLASH :: T ++ SLASH :: lit "../../etc/passwd").
  rewrite normalize_absolute.
  assert (Hend : endsWithSlash
            (SLASH :: lit "tmp" ++ SLASH :: T ++ SLASH :: lit "../../etc/passwd")
          = false).
  { unfold endsWithSlash.
    change (SLASH :: lit "tmp" ++ SLASH :: T ++ SLASH :: lit "../../etc/passwd")
      with (lit "/tmp/" ++ T ++ lit "/../../etc/passwd").
    rewrite !rev_app_distr. reflexivity. }
  rewrite Hend.
  change (SLASH :: lit "tmp" ++ SLASH :: T ++ SLASH :: lit "../../etc/passwd")
    with (lit "/tmp" ++ SLASH :: T ++ SLASH :: lit "../../etc/passwd").
  rewrite !split_app, (split_slashfree T Hno).
  change (split (lit "/tmp")) with [[]; lit "tmp"].
  change (split (lit "../../etc/passwd"))
    with [lit ".."; lit ".."; lit "etc"; lit "passwd"].
  cbn [app].
  change (normalizeSegments false [] ([] :: lit "tmp" :: ?x))
    with (normalizeSegments false [lit "tmp"] x).
  rewrite (normalizeSegments_plain _ _ _ _ Hplain).
  destruct (plain_kept _ Hplain) as (_ & _ & E3).
  rewrite (normalizeSegments_pop _ _ _ _ E3).
  reflexivity.
Qed.

Lemma detour_stays_in_tmp (now : Z) :
  join [lit "/tmp"; temp_name now (lit "a/../cv.pdf")] = lit "/tmp/cv.pdf".
Proof.
  pose proof (temp_name_plain now (lit "a")) as Hplain.
  assert (Ha : ~ In SLASH (lit "a")) by (vm_compute; intuition discriminate).
  specialize (Hplain Ha).
  assert (E : temp_name now (lit "a/../cv.pdf")
              = temp_name now (lit "a") ++ SLASH :: lit "../cv.pdf").
  { unfold temp_name. rewrite <- !app_assoc. reflexivity. }
  rewrite E. clear E.
  generalize dependent (temp_name now (lit "a")). intros T Hplain.
  pose proof Hplain as (Hne & Hno & _).
  rewrite join_two; [|discriminate|destruct T; discriminate].
  change (lit "/tmp" ++ SLASH :: T ++ SLASH :: lit "../cv.pdf")
    with (SLASH :: lit "tmp" ++ SLASH :: T ++ SLASH :: lit "../cv.pdf").
  rewrite normalize_absolute.
  assert (Hend : endsWithSlash
            (SLASH :: lit "tmp" ++ SLASH :: T ++ SLASH :: lit "../cv.pdf")
          = false).
  { unfold endsWithSlash.
    change (SLASH :: lit "tmp" ++ SLASH :: T ++ SLASH :: lit "../cv.pdf")
      with (lit "/tmp/" ++ T ++ lit "/../cv.pdf").
    rewrite !rev_app_distr. reflexivity. }
  rewrite Hend.
  change (SLASH :: lit "tmp" ++ SLASH :: T ++ SLASH :: lit "../cv.pdf")
    with (lit "/tmp" ++ SLASH :: T ++ SLASH :: lit "../cv.pdf").
  rewrite !split_app, (split_slashfree T Hno).
  change (split (lit "/tmp")) with [[]; lit "tmp"].
  change (split (lit "../cv.pdf")) with [lit ".."; lit "cv.pdf"].
  cbn [app].
  change (normalizeSegments false [] ([] :: lit "tmp" :: ?x))
    with (normalizeSegments false [lit "tmp"] x).
  rewrite (normalizeSegments_plain _ _ _ _ Hplain).
  destruct (plain_kept _ Hplain) as (_ & _ & E3).
  rewrite (normalizeSegments_pop _ _ _ _ E3).
  reflexivity.
Qed.

Lemma intercalate_app (K : list jsstring) (seg : jsstring) :
  K <> [] -> intercalate (K ++ [seg]) = intercalate K ++ SLASH :: seg.
Proof.
  induction K as [|k K IH]; [contradiction|]. intros _.
  destruct K as [|k' K]; [reflexivity|].
  change ((k :: k' :: K) ++ [seg]) with (k :: ((k' :: K) ++ [seg])).
  rewrite intercalate_cons by discriminate.
  rewrite IH by discriminate.
  rewrite (intercalate_cons k (k' :: K)) by discriminate.
  rewrite <- app_assoc. reflexivity.
Qed.

Lemma normalizeSegments_snoc (allow : bool) (xs : list jsstring)
  (seg : jsstring) :
  plain seg ->
  normalizeSegments allow [] (xs ++ [seg])
  = normalizeSegments allow [] xs ++ [seg].
Proof.
  intros H. destruct (normalizeSegments_app allow xs []) as (res & Hres).
  pose proof (Hres []) as H0. rewrite app_nil_r in H0.
  rewrite H0, (Hres [seg]), (normalizeSegments_plain _ _ _ _ H). reflexivity.
Qed.

(** In a directory given by an absolute normalized path, a plain segment
    names an entry of that directory. *)
Lemma join_in_directory (dir seg : jsstring) :
  isDirectoryPath dir -> plain seg -> join [dir; seg] = dir ++ SLASH :: seg.
Proof.
  intros (Habs & Hend & Hnorm) Hplain. pose proof Hplain as (Hne & Hno & _).
  destruct dir as [|c d]; [discriminate|].
  cbn in Habs. apply N.eqb_eq in Habs. subst c.
  rewrite join_two by (discriminate || assumption).
  pose proof (endsWithSlash_app ((SLASH :: d) ++ [SLASH]) seg Hne Hno) as Hend'.
  rewrite <- app_assoc in Hend'. cbn [app] in Hend'.
  rewrite normalize_absolute in Hnorm. rewrite Hend in Hnorm.
  change ((SLASH :: d) ++ SLASH :: seg) with (SLASH :: d ++ SLASH :: seg).
  rewrite normalize_absolute, Hend'.
  change (SLASH :: d ++ SLASH :: seg) with ((SLASH :: d) ++ SLASH :: seg).
  rewrite split_app, (split_slashfree _ Hno),
    (normalizeSegments_snoc _ _ _ Hplain).
  destruct (normalizeSegments false [] (split (SLASH :: d))) as [|k K] eqn:EN.
  - cbn in Hnorm. injection Hnorm as <-. discriminate Hend.
  - rewrite intercalate_app by discriminate.
    destruct (intercalate (k :: K)) as [|q0 q] eqn:Eq.
    + injection Hnorm as <-. discriminate Hend.
    + rewrite app_nil_r in Hnorm. injection Hnorm as <-.
      cbn [app]. rewrite app_nil_r. reflexivity.
Qed.

End Paths.

(** The handler never throws: whatever goes wrong inside is caught by the
    outer [catch]. *)
Lemma POST_never_throws (env : Env) (e : JsError) : completion env <> Throw e.
Proof.
  unfold completion.
  destruct (validated_dec env) as [(file & U & V)|N].
  - pose proof (POST_validated env file U V) as P. cbv zeta in P.
    destruct (writeFile_outcome env); [rewrite P; discriminate|].
    destruct (extractTextFromFile_promise env) as [|raw|e'];
      try (rewrite P; discriminate).
    destruct P as (mid & late & _ & _ & _ & P).
    destruct (preprocessText_promise env raw);
      try (rewrite P; discriminate).
    destruct (unlink_outcome env 0%nat); rewrite P; discriminate.
  - destruct (POST_not_validated env N) as (r & tr & E & _).
    rewrite E. discriminate.
Qed.

(** * The claims *)

(** C1, as stated, fails: the temp file is written, both workers succeed,
    the first deletion is refused, and a second deletion of the same path
    is attempted: two releases for one acquire.  Nor is the second release
    a no-op: when it fails too, it is its error that the handler logs. *)
Lemma release_attempted_twice :
  acquired deletion_refused (lit "/tmp/temp_1700000000000_cv.pdf")
  /\ completion deletion_refused = Normal response_500
  /\ unlinked (trace deletion_refused)
     = [lit "/tmp/temp_1700000000000_cv.pdf";
        lit "/tmp/temp_1700000000000_cv.pdf"]
  /\ unlinked (trace deletion_refused_twice)
     = [lit "/tmp/temp_1700000000000_cv.pdf";
        lit "/tmp/temp_1700000000000_cv.pdf"]
  /\ last (trace deletion_refused_twice) (ConsoleLog [])
     = error_logged (MkError (lit "ENOENT: no such file or directory")).
Proof.
  split.
  - split; [reflexivity|]. eexists _, _. vm_compute. reflexivity.
  - repeat apply conj; vm_compute; reflexivity.
Qed.

(** C1, amended: a request that did not acquire a temp file attempts no
    release; a request that acquired one and comes to an end attempts a
    release of that very path on every exit path, and attempts exactly one
    whenever extraction failed or the first deletion succeeded.  (When the
    deletion fails after both workers succeeded, it is attempted again.) *)
Theorem release_discipline (env : Env) :
  ((forall path, ~ acquired env path) -> unlinked (trace env) = [])
  /\ (forall path,
        acquired env path -> completion env <> NeverSettles ->
        (unlinked (trace env) = [path] \/ unlinked (trace env) = [path; path])
        /\ ((exists e, extract_promise (extract_events env) = Rejected e)
            \/ unlink_outcome env 0%nat = None ->
            unlinked (trace env) = [path])).
Proof.
  unfold acquired, completion, trace.
  destruct (validated_dec env) as [(file & U & V)|N].
  - pose proof (POST_validated env file U V) as P. cbv zeta in P.
    destruct (writeFile_outcome env) as [e|].
    { rewrite P. split; [reflexivity|]. intros path [[=] _]. }
    destruct (extractTextFromFile_promise env) as [|raw|e] eqn:Ex.
    + rewrite P. split; [reflexivity|]. intros path _ Hc. destruct Hc. reflexivity.
    + apply extractTextFromFile_resolved in Ex.
      destruct P as (mid & late & _ & Hmid & Hlate & P).
      destruct (preprocessText_promise env raw) as [|text|e'].
      * rewrite P. split.
        { intros _. cbn [snd]. rewrite unlinked_app, Hmid. reflexivity. }
        intros path _ Hc. destruct Hc. reflexivity.
      * destruct (unlink_outcome env 0%nat) as [e|] eqn:D; rewrite P;
          cbn [fst snd];
          repeat (progress (rewrite ?unlinked_app, ?unlinked_cons, ?Hmid,
                              ?(console_unlinked _ Hlate))).
        { split.
          - intros Hno. destruct (Hno (tempFilePath env file)).
            split; [reflexivity|]. eexists _, _. reflexivity.
          - intros path (_ & data & rest & [= <- _ _]) _.
            split; [right; reflexivity|].
            intros [[e' He']|[=]]. congruence. }
        { split.
          - intros Hno. destruct (Hno (tempFilePath env file)).
            split; [reflexivity|]. eexists _, _. reflexivity.
          - intros path (_ & data & rest & [= <- _ _]) _.
            split; [left; reflexivity|]. intros _. reflexivity. }
      * rewrite P. cbn [fst snd]. rewrite !unlinked_app, Hmid. split.
        { intros Hno. destruct (Hno (tempFilePath env file)).
          split; [reflexivity|]. eexists _, _. reflexivity. }
        intros path (_ & data & rest & [= <- _ _]) _.
        split; [left; reflexivity|]. intros _. reflexivity.
    + rewrite P. cbn [fst snd]. split.
      * intros Hno. destruct (Hno (tempFilePath env file)).
        split; [reflexivity|]. eexists _, _. reflexivity.
      * intros path (_ & data & rest & [= <- _ _]) _.
        split; [left; reflexivity|]. intros _. reflexivity.
  - destruct (POST_not_validated env N) as (r & tr & E & _ & A & Un).
    rewrite E. cbn [fst snd]. split; [intros _; exact Un|].
    intros path (_ & data & rest & ->) _.
    rewrite actions_cons in A. discriminate.
Qed.

(** On scenario C of the specification: one release. *)
Lemma release_discipline_witness :
  unlinked (trace corrupt_pdf) = [lit "/tmp/temp_1700000000000_cv.pdf"].
Proof.
  refine (proj2 (proj2 (release_discipline corrupt_pdf)
                   (lit "/tmp/temp_1700000000000_cv.pdf") _ _) _).
  - split; [reflexivity|]. eexists _, _. vm_compute. reflexivity.
  - vm_compute. discriminate.
  - left. eexists. vm_compute. reflexivity.
Defined.




(** C3: a request carrying a file passes validation (the handler goes on
    to create the temp file) iff the declared type is [application/pdf]
    and the size is at most 5 * 1024 * 1024; otherwise the answer is
    HTTP 400 with a message, and no temp file is written and no worker is
    started. *)
Theorem validation_accepts_iff (env : Env) (file : File)
  (Hup : uploaded env file) :
  (passes_validation env = true
   <-> type file = lit "application/pdf" /\ size file <= 5 * 1024 * 1024)
  /\ (~ (type file = lit "application/pdf" /\ size file <= 5 * 1024 * 1024) ->
      (exists msg,
         completion env =
           Normal {| status := 400;
                     body := [("message"%string, JString msg)] |})
      /\ filter isWriteFile (trace env) = []
      /\ filter isSpawn (trace env) = []).
Proof.
  unfold passes_validation, completion, trace.
  destruct (valid_dec file) as [V|V].
  - split; [|intros N; destruct (N V)].
    split; [intros _; exact V | intros _].
    pose proof (POST_validated env file Hup V) as P. cbv zeta in P.
    destruct (writeFile_outcome env); [rewrite P; reflexivity|].
    destruct (extractTextFromFile_promise env) as [|raw|e];
      try (rewrite P; reflexivity).
    destruct P as (mid & late & _ & _ & _ & P).
    destruct (preprocessText_promise env raw); try (rewrite P; reflexivity).
    destruct (unlink_outcome env 0%nat); rewrite P; reflexivity.
  - assert (E : exists msg,
               POST env [] =
               (Normal {| status := 400;
                          body := [("message"%string, JString msg)] |}, [])).
    { destruct (list_eq_dec N.eq_dec (type file) (lit "application/pdf"))
        as [T|T].
      - destruct (Z_le_dec (size file) (5 * 1024 * 1024)) as [S|S].
        + destruct V. split; assumption.
        + eexists. apply (POST_too_large env file Hup T). lia.
      - eexists. apply (POST_wrong_type env file Hup T). }
    destruct E as (msg & E). rewrite E. cbn.
    split; [split; [discriminate | intros V'; destruct (V V')]|].
    intros _. split; [exists msg; reflexivity | split; reflexivity].
Qed.

Lemma validation_accepts_iff_witness :
  (exists msg,
     completion msword_upload =
       Normal {| status := 400; body := [("message"%string, JString msg)] |})
  /\ filter isWriteFile (trace msword_upload) = []
  /\ filter isSpawn (trace msword_upload) = [].
Proof.
  refine (proj2 (validation_accepts_iff msword_upload
                   {| name := lit "cv.doc"; type := lit "application/msword";
                      size := 10240; arrayBuffer := [] |} _) _).
  - eexists. split; reflexivity.
  - intros [T _]. vm_compute in T. discriminate.
Defined.

(** C4: when the extraction worker fails to start or exits with a code
    other than 0, the request is aborted with HTTP 500 and a JSON message;
    the temp file is released (one [unlink] of its path, after the worker
    was started) before the error is logged and the response produced. *)
Theorem extraction_failure_is_500 (env : Env) (file : File)
  (Hup : uploaded env file) (Hvalid : valid file)
  (Hwritten : writeFile_outcome env = None)
  (Hfail : (exists err, settledBy (extract_events env) = Some (ChildError err))
           \/ (exists code, settledBy (extract_events env) = Some (Close code)
                            /\ code <> Some 0)) :
  completion env =
    Normal {| status := 500;
              body := [("message"%string,
                        JString (lit "Error processing file. Please try again."))] |}
  /\ exists e,
       trace env =
       [FsWriteFile (tempFilePath env file) (arrayBuffer file);
        ChildSpawn (lit "python3") [extract_script env; tempFilePath env file];
        FsUnlink (tempFilePath env file);
        ConsoleError [VString (lit "Error processing file:"); VError e]].
Proof.
  apply extract_rejected in Hfail. destruct Hfail as [e He].
  assert (He' : extractTextFromFile_promise env = Rejected e)
    by (apply extractTextFromFile_rejected; right; exact He).
  pose proof (POST_validated env file Hup Hvalid) as P. cbv zeta in P.
  rewrite Hwritten, He' in P. unfold completion, trace. rewrite P.
  split; [reflexivity|]. eexists. reflexivity.
Qed.

Lemma extraction_failure_is_500_witness :
  completion corrupt_pdf =
    Normal {| status := 500;
              body := [("message"%string,
                        JString (lit "Error processing file. Please try again."))] |}
  /\ exists e,
       trace corrupt_pdf =
       [FsWriteFile (tempFilePath corrupt_pdf cv_pdf) (arrayBuffer cv_pdf);
        ChildSpawn (lit "python3")
          [extract_script corrupt_pdf; tempFilePath corrupt_pdf cv_pdf];
        FsUnlink (tempFilePath corrupt_pdf cv_pdf);
        ConsoleError [VString (lit "Error processing file:"); VError e]].
Proof.
  apply (extraction_failure_is_500 corrupt_pdf cv_pdf).
  - eexists. split; reflexivity.
  - split; [reflexivity | cbn; lia].
  - reflexivity.
  - right. exists (Some 1). split; [reflexivity | discriminate].
Defined.

(** C5, as stated, fails: extraction and anonymization succeed, the
    deletion of the temp file fails, and the response is HTTP 500. *)
Lemma deletion_failure_is_not_swallowed :
  extract_promise (extract_events deletion_refused)
  = Resolved (lit "John Doe, Software Engineer")
  /\ preprocess_promise (lit "John Doe, Software Engineer")
       (anonymize_events deletion_refused)
     = Resolved (lit "[NAME], Software Engineer")
  /\ completion deletion_refused = Normal response_500
  /\ status response_500 <> 200.
Proof.
  repeat split; try (vm_compute; reflexivity).
  vm_compute. discriminate.
Qed.

(** C5, amended: a failing deletion never escapes the handler as an
    exception, but it is not swallowed either: when extraction and
    anonymization succeeded and the deletion of the temp file fails, the
    deletion is tried once more (two [unlink] calls in all, both on the
    temp path, with nothing but console output between them), the error
    is logged with [console.error] after the second attempt, and the
    response is the generic HTTP 500. *)
Theorem deletion_failure_is_500 (env : Env) (file : File)
  (raw text : jsstring) (e : JsError)
  (Hup : uploaded env file) (Hvalid : valid file)
  (Hwritten : writeFile_outcome env = None)
  (Hraw : extract_promise (extract_events env) = Resolved raw)
  (Htext : preprocess_promise raw (anonymize_events env) = Resolved text)
  (Hrefused : unlink_outcome env 0%nat = Some e) :
  completion env = Normal response_500
  /\ unlinked (trace env) = [tempFilePath env file; tempFilePath env file]
  /\ exists before between after,
       trace env =
       before ++ FsUnlink (tempFilePath env file)
              :: between ++ FsUnlink (tempFilePath env file) :: after
       /\ actions between = []
       /\ In (ConsoleError
                [VString (lit "Error processing file:");
                 VError (first_error e (unlink_outcome env 1%nat))])
             after.
Proof.
  apply extractTextFromFile_resolved in Hraw.
  apply preprocessText_resolved in Htext.
  pose proof (POST_validated env file Hup Hvalid) as P. cbv zeta in P.
  rewrite Hwritten, Hraw in P. destruct P as (mid & late & _ & Hmid & Hlate & P).
  rewrite Htext, Hrefused in P. unfold completion, trace. rewrite P.
  cbn [fst snd]. split; [reflexivity|]. split.
  - repeat (progress (rewrite ?unlinked_app, ?unlinked_cons, ?Hmid,
                        ?(console_unlinked _ Hlate))).
    reflexivity.
  - exists ([FsWriteFile (tempFilePath env file) (arrayBuffer file);
             ChildSpawn (lit "python3")
               [extract_script env; tempFilePath env file]] ++ mid),
           late,
           [error_logged (first_error e (unlink_outcome env 1%nat))].
    split; [rewrite <- app_assoc; reflexivity|].
    split; [apply console_actions, Hlate | left; reflexivity].
Qed.

(** The anonymization worker cannot be started and the deletion is
    refused: the ['close'] that follows the ['error'] is heard between the
    two deletions. *)
Lemma deletion_failure_is_500_witness :
  completion no_anonymizer_deletion_refused = Normal response_500
  /\ unlinked (trace no_anonymizer_deletion_refused)
     = [tempFilePath no_anonymizer_deletion_refused cv_pdf;
        tempFilePath no_anonymizer_deletion_refused cv_pdf]
  /\ exists before between after,
       trace no_anonymizer_deletion_refused =
       before ++ FsUnlink (tempFilePath no_anonymizer_deletion_refused cv_pdf)
              :: between
              ++ FsUnlink (tempFilePath no_anonymizer_deletion_refused cv_pdf)
              :: after
       /\ actions between = []
       /\ In (ConsoleError
                [VString (lit "Error processing file:");
                 VError (first_error
                           (MkError (lit "EPERM: operation not permitted"))
                           (unlink_outcome no_anonymizer_deletion_refused
                              1%nat))])
             after.
Proof.
  apply (deletion_failure_is_500 no_anonymizer_deletion_refused cv_pdf
           (lit "John Doe, Software Engineer")
           (lit "John Doe, Software Engineer")).
  - eexists. split; reflexivity.
  - split; [reflexivity | cbn; lia].
  - reflexivity.
  - vm_compute. reflexivity.
  - vm_compute. reflexivity.
  - reflexivity.
Defined.

(** C6, as stated, fails: the request succeeds with a non-empty raw text
    and an empty processed text. *)
Lemma processed_text_can_be_empty :
  completion silent_anonymizer
  = Normal (response_200 [] (lit "John Doe, Software Engineer") cv_pdf)
  /\ lit "John Doe, Software Engineer" <> [].
Proof.
  split; [vm_compute; reflexivity | vm_compute; discriminate].
Qed.

(** C6, amended: in a successful response the processed text is empty
    exactly when the anonymization worker exited 0 with a standard output
    that trims to the empty string, or did not exit 0 and the raw text is
    empty.  So a non-empty raw text gives a non-empty processed text unless
    the worker exits 0 with blank output. *)
Theorem processed_text_empty_iff (env : Env) (file : File)
  (raw text : jsstring)
  (Hdone : completion env = Normal (response_200 text raw file)) :
  text = [] <->
  (settledBy (anonymize_events env) = Some (Close (Some 0))
   /\ trim (stdoutBefore (anonymize_events env)) = [])
  \/ (settledBy (anonymize_events env) <> Some (Close (Some 0)) /\ raw = []).
Proof.
  destruct (success_inversion env _ Hdone eq_refl)
    as (file' & raw' & text' & _ & _ & _ & _ & Pre & _ & E).
  injection E as -> -> _ _.
  unfold preprocess_promise in Pre.
  destruct (settledBy (anonymize_events env)) as [[d|d|code|err]|];
    try discriminate.
  - destruct (code_is_zero code) eqn:Z.
    + apply code_is_zero_iff in Z. subst code. injection Pre as <-.
      split; [intros H; left; auto | intros [[_ H]|[N _]]; congruence].
    + injection Pre as <-.
      assert (N : Some (Close code) <> Some (Close (Some 0)))
        by (intros [= ->]; discriminate).
      split; [intros H; right; auto | intros [[[= ->] _]|[_ H]]];
        [discriminate | exact H].
  - injection Pre as <-.
    split; [intros H; right; split; [discriminate | exact H]
           | intros [[[=] _]|[_ H]]; exact H].
Qed.

Lemma processed_text_empty_iff_witness :
  @nil N = [] <->
  (settledBy (anonymize_events silent_anonymizer) = Some (Close (Some 0))
   /\ trim (stdoutBefore (anonymize_events silent_anonymizer)) = [])
  \/ (settledBy (anonymize_events silent_anonymizer) <> Some (Close (Some 0))
      /\ lit "John Doe, Software Engineer" = []).
Proof.
  apply (processed_text_empty_iff silent_anonymizer cv_pdf).
  vm_compute. reflexivity.
Defined.

(** C7, as stated, fails: two distinct requests, served in the same
    millisecond with the same filename, write their different contents to
    the same temp path, and each deletes the file of the other. *)
Lemma same_millisecond_uploads_collide :
  alice_request <> bob_request
  /\ tempFilePath alice_request alice_cv = tempFilePath bob_request bob_cv
  /\ (exists rest, trace alice_request
                   = FsWriteFile (lit "/tmp/temp_1700000000000_cv.pdf")
                       [Byte.x41] :: rest
                   /\ In (FsUnlink (lit "/tmp/temp_1700000000000_cv.pdf")) rest)
  /\ (exists rest, trace bob_request
                   = FsWriteFile (lit "/tmp/temp_1700000000000_cv.pdf")
                       [Byte.x42] :: rest
                   /\ In (FsUnlink (lit "/tmp/temp_1700000000000_cv.pdf")) rest).
Proof.
  split; [|split; [reflexivity|split]].
  - intros H. apply (f_equal request_formData) in H. discriminate H.
  - eexists. split; [vm_compute; reflexivity|].
    apply in_rev. left. reflexivity.
  - eexists. split; [vm_compute; reflexivity|].
    apply in_rev. left. reflexivity.
Qed.

(** C7, amended: for two requests served from the same temp directory
    whose filenames contain no path separator, the temp paths are equal
    exactly when the millisecond timestamps are equal and the filenames are
    equal; so such requests get distinct paths as soon as they differ in
    timestamp or in filename, and only then. *)
Theorem temp_paths_equal_iff (env1 env2 : Env) (file1 file2 : File)
  (Hdir : tmpdir env1 = tmpdir env2)
  (Hname1 : ~ In SLASH (name file1))
  (Hname2 : ~ In SLASH (name file2)) :
  tempFilePath env1 file1 = tempFilePath env2 file2
  <-> Date_now env1 = Date_now env2 /\ name file1 = name file2.
Proof.
  rewrite !tempFilePath_join, <- Hdir.
  split.
  - destruct (join_plain (tmpdir env1)) as (pre & Hpre).
    rewrite !Hpre by (apply temp_name_plain; assumption).
    intros H. apply app_inv_head in H. apply temp_name_inj, H.
  - intros [-> ->]. reflexivity.
Qed.

(** One millisecond apart, the same filename gets two paths. *)
Lemma temp_paths_equal_iff_witness :
  tempFilePath alice_request alice_cv
  <> tempFilePath (later bob_request) bob_cv.
Proof.
  intros H.
  apply (proj1 (temp_paths_equal_iff alice_request (later bob_request)
                  alice_cv bob_cv eq_refl
                  ltac:(vm_compute; intuition discriminate)
                  ltac:(vm_compute; intuition discriminate))) in H.
  destruct H as [H _]. discriminate H.
Defined.

(** C8: a response with status 200 has a body with exactly the fields
    [text], [rawText], [filename] and [size]: the processed text, the
    trimmed standard output of the extraction worker (which exited 0), and
    the name and the size of the uploaded file. *)
Theorem success_response_shape (env : Env) (r : Response)
  (Hdone : completion env = Normal r) (Hok : status r = 200) :
  exists file text,
    uploaded env file
    /\ settledBy (extract_events env) = Some (Close (Some 0))
    /\ preprocess_promise (trim (stdoutBefore (extract_events env)))
         (anonymize_events env) = Resolved text
    /\ body r =
       [("text"%string, JString text);
        ("rawText"%string, JString (trim (stdoutBefore (extract_events env))));
        ("filename"%string, JString (name file));
        ("size"%string, JNumber (size file))].
Proof.
  destruct (success_inversion env r Hdone Hok)
    as (file & raw & text & U & _ & _ & Ex & Pre & _ & ->).
  apply extract_resolved in Ex. destruct Ex as [Hclose ->].
  exists file, text. repeat split; assumption.
Qed.

Lemma success_response_shape_witness :
  exists file text,
    uploaded scenario_A file
    /\ settledBy (extract_events scenario_A) = Some (Close (Some 0))
    /\ preprocess_promise (trim (stdoutBefore (extract_events scenario_A)))
         (anonymize_events scenario_A) = Resolved text
    /\ body (response_200 (lit "[NAME], Software Engineer")
               (lit "John Doe, Software Engineer") cv_pdf) =
       [("text"%string, JString text);
        ("rawText"%string,
         JString (trim (stdoutBefore (extract_events scenario_A))));
        ("filename"%string, JString (name file));
        ("size"%string, JNumber (size file))].
Proof.
  apply (success_response_shape scenario_A
           (response_200 (lit "[NAME], Software Engineer")
              (lit "John Doe, Software Engineer") cv_pdf)).
  - vm_compute. reflexivity.
  - reflexivity.
Defined.

Lemma POST_writes_first (env : Env) (file : File) :
  uploaded env file -> valid file ->
  exists rest,
    trace env = FsWriteFile (tempFilePath env file) (arrayBuffer file) :: rest.
Proof.
  intros U V. unfold trace.
  pose proof (POST_validated env file U V) as P. cbv zeta in P.
  destruct (writeFile_outcome env); [rewrite P; eexists; reflexivity|].
  destruct (extractTextFromFile_promise env) as [|raw|e];
    try (rewrite P; eexists; reflexivity).
  destruct P as (mid & late & _ & _ & _ & P).
  destruct (preprocessText_promise env raw);
    try (rewrite P; eexists; reflexivity).
  destruct (unlink_outcome env 0%nat); rewrite P; eexists; reflexivity.
Qed.

(** C9, as stated, fails: a filename with path separators and [..], and
    the filename [..] itself, are written to the very directory a plain
    filename is written to; neither changes the directory. *)
Lemma separators_need_not_change_the_directory :
  (In SLASH (name detour_pdf)
   /\ (exists rest,
         trace detour_upload
         = FsWriteFile (lit "/tmp/cv.pdf") (arrayBuffer detour_pdf) :: rest)
   /\ inDirectory (lit "/tmp") (lit "/tmp/cv.pdf"))
  /\ (name dotdot_pdf = lit ".."
      /\ (exists rest,
            trace dotdot_upload
            = FsWriteFile (lit "/tmp/temp_1700000000000_..")
                (arrayBuffer dotdot_pdf) :: rest)
      /\ inDirectory (lit "/tmp") (lit "/tmp/temp_1700000000000_.."))
  /\ ((exists rest,
         trace scenario_A
         = FsWriteFile (lit "/tmp/temp_1700000000000_cv.pdf")
             (arrayBuffer cv_pdf) :: rest)
      /\ inDirectory (lit "/tmp") (lit "/tmp/temp_1700000000000_cv.pdf")).
Proof.
  assert (Hin : forall entry : string,
            ~ In SLASH (lit entry) -> lit entry <> [] ->
            inDirectory (lit "/tmp") (lit "/tmp" ++ SLASH :: lit entry)).
  { intros entry H1 H2. exists (lit entry). auto. }
  repeat apply conj.
  - vm_compute. tauto.
  - eexists. vm_compute. reflexivity.
  - apply (Hin "cv.pdf"%string); [vm_compute; intuition discriminate | discriminate].
  - reflexivity.
  - eexists. vm_compute. reflexivity.
  - apply (Hin "temp_1700000000000_.."%string);
      [vm_compute; intuition discriminate | discriminate].
  - eexists. vm_compute. reflexivity.
  - apply (Hin "temp_1700000000000_cv.pdf"%string);
      [vm_compute; intuition discriminate | discriminate].
Qed.

(** C9, amended: a request that passes validation first writes the
    uploaded bytes to [join(tmpdir(), `temp_${Date.now()}_${file.name}`)],
    the filename of the client being embedded as it is before [join]
    normalizes the path.  For a filename without path separator (two dots
    or not) and a temp directory given by an absolute normalized path,
    that is [<tmpdir>/temp_<decimal timestamp>_<filename>], an entry of
    the temp directory.  A filename with path separators can change the
    directory: with the temp directory [/tmp], [x/../../etc/passwd] sends
    the bytes to [/etc/passwd]; it need not: [a/../cv.pdf] sends them to
    [/tmp/cv.pdf]; both whatever the timestamp. *)
Theorem temp_path_embeds_filename (env : Env) (file : File)
  (Hup : uploaded env file) (Hvalid : valid file) :
  exists p rest,
    trace env = FsWriteFile p (arrayBuffer file) :: rest
    /\ p = join [tmpdir env;
                 lit "temp_" ++ Number_toString (Date_now env) ++ lit "_"
                 ++ name file]
    /\ (isDirectoryPath (tmpdir env) -> ~ In SLASH (name file) ->
        p = tmpdir env ++ lit "/temp_"
            ++ lit (NilZero.string_of_int (Z.to_int (Date_now env)))
            ++ lit "_" ++ name file
        /\ inDirectory (tmpdir env) p)
    /\ (tmpdir env = lit "/tmp" -> name file = lit "x/../../etc/passwd" ->
        p = lit "/etc/passwd")
    /\ (tmpdir env = lit "/tmp" -> name file = lit "a/../cv.pdf" ->
        p = lit "/tmp/cv.pdf").
Proof.
  destruct (POST_writes_first env file Hup Hvalid) as (rest & W).
  exists (tempFilePath env file), rest.
  split; [exact W|]. split; [reflexivity|]. split; [|split].
  - intros Hdir Hname.
    pose proof (temp_name_plain (Date_now env) (name file) Hname) as Hplain.
    rewrite tempFilePath_join, (join_in_directory _ _ Hdir Hplain).
    split.
    + unfold temp_name, Number_toString. reflexivity.
    + exists (temp_name (Date_now env) (name file)).
      split; [apply Hplain|split; [apply Hplain|reflexivity]].
  - intros Hdir Hname.
    rewrite tempFilePath_join, Hdir, Hname. apply traversal_escapes_tmp.
  - intros Hdir Hname.
    rewrite tempFilePath_join, Hdir, Hname. apply detour_stays_in_tmp.
Qed.

(** Scenario A of the specification: the temp file is
    [/tmp/temp_1700000000000_cv.pdf]. *)
Lemma temp_path_embeds_filename_witness :
  exists rest,
    trace scenario_A
    = FsWriteFile (lit "/tmp/temp_1700000000000_cv.pdf") (arrayBuffer cv_pdf)
      :: rest.
Proof.
  destruct (temp_path_embeds_filename scenario_A cv_pdf
              ltac:(eexists; split; reflexivity)
              ltac:(split; [reflexivity | cbn; lia]))
    as (p & rest & W & _ & Hplain & _).
  exists rest. rewrite W.
  destruct Hplain as [-> _].
  - repeat split.
  - vm_compute. intuition discriminate.
  - reflexivity.
Defined.

(** C10: when the form data has no [file] field, the endpoint answers
    HTTP 400 with the message "No file provided"; it writes no temp file
    and starts no worker (it does nothing at all). *)
Theorem missing_file_field_is_400 (env : Env) (fd : FormData)
  (Hform : request_formData env = inl fd)
  (Hnofile : ~ In (lit "file") (map fst fd)) :
  completion env =
    Normal {| status := 400;
              body := [("message"%string, JString (lit "No file provided"))] |}
  /\ trace env = [].
Proof.
  unfold completion, trace.
  rewrite (POST_no_file env fd Hform (FormData_get_absent _ _ Hnofile)).
  split; reflexivity.
Qed.

Lemma missing_file_field_is_400_witness :
  completion empty_form =
    Normal {| status := 400;
              body := [("message"%string, JString (lit "No file provided"))] |}
  /\ trace empty_form = [].
Proof.
  apply (missing_file_field_is_400 empty_form
           [(lit "note", EntryString (lit "hello"))]).
  - reflexivity.
  - cbn. intros [H|[]]. vm_compute in H. discriminate.
Defined.

(** * Further properties of the route *)

(** Every way a request can be turned away before the temp file. *)
Lemma POST_unvalidated_cases (env : Env) :
  (forall file, uploaded env file -> ~ valid file) ->
  (exists e, request_formData env = inr e
             /\ POST env [] = (Normal response_500, [error_logged e]))
  \/ (exists fd,
        request_formData env = inl fd
        /\ (((FormData_get fd (lit "file") = None
              \/ FormData_get fd (lit "file") = Some (EntryString []))
             /\ POST env [] = (Normal (response_400 "No file provided"), []))
            \/ (((exists c s, FormData_get fd (lit "file")
                              = Some (EntryString (c :: s)))
                 \/ (exists f, FormData_get fd (lit "file") = Some (EntryFile f)
                               /\ type f <> lit "application/pdf"))
                /\ POST env [] =
                   (Normal (response_400
                      "Invalid file type. Only PDF files are allowed."), []))
            \/ ((exists f, FormData_get fd (lit "file") = Some (EntryFile f)
                           /\ type f = lit "application/pdf"
                           /\ size f > 5 * 1024 * 1024)
                /\ POST env [] =
                   (Normal (response_400
                      "File too large. Maximum size is 5MB."), [])))).
Proof.
  intros Hinv.
  destruct (request_formData env) as [fd|e] eqn:H.
  2:{ left. exists e. split; [reflexivity|].
      apply (POST_formData_rejects env e H). }
  right. exists fd. split; [reflexivity|].
  destruct (FormData_get fd (lit "file")) as [[file|s]|] eqn:G.
  - assert (U : uploaded env file) by (exists fd; auto).
    destruct (list_eq_dec N.eq_dec (type file) (lit "application/pdf")) as [T|T].
    + destruct (Z_le_dec (size file) (5 * 1024 * 1024)) as [S|S].
      { destruct (Hinv file U). split; assumption. }
      right; right. split; [exists file; repeat split; auto; lia|].
      apply (POST_too_large env file U T). lia.
    + right; left. split; [right; exists file; auto|].
      apply (POST_wrong_type env file U T).
  - pose proof (POST_string_field env fd s H G) as P.
    destruct s as [|c s].
    + left. split; [right; reflexivity | exact P].
    + right; left. split; [left; exists c, s; reflexivity | exact P].
  - left. split; [left; reflexivity|]. apply (POST_no_file env fd H G).
Qed.

Ltac validated_cases env file U V P :=
  pose proof (POST_validated env file U V) as P; cbv zeta in P.

(** The five shapes of a response. *)
Lemma POST_response_shapes (env : Env) (r : Response) :
  completion env = Normal r ->
  r = response_400 "No file provided"
  \/ r = response_400 "Invalid file type. Only PDF files are allowed."
  \/ r = response_400 "File too large. Maximum size is 5MB."
  \/ r = response_500
  \/ exists file text,
       uploaded env file /\ valid file
       /\ r = response_200 text (trim (stdoutBefore (extract_events env))) file.
Proof.
  intros Hdone. unfold completion in Hdone.
  destruct (validated_dec env) as [(file & U & V)|N].
  - validated_cases env file U V P.
    destruct (writeFile_outcome env).
    { rewrite P in Hdone. injection Hdone as <-. auto. }
    destruct (extractTextFromFile_promise env) as [|raw|e] eqn:Ex.
    + rewrite P in Hdone. discriminate.
    + apply extractTextFromFile_resolved, extract_resolved in Ex.
      destruct Ex as [_ ->].
      destruct P as (mid & late & _ & _ & _ & P).
      destruct (preprocessText_promise env _) as [|text|e].
      * rewrite P in Hdone. discriminate.
      * destruct (unlink_outcome env 0%nat); rewrite P in Hdone;
          injection Hdone as <-; auto.
        do 4 right. exists file, text. auto.
      * rewrite P in Hdone. injection Hdone as <-. auto.
    + rewrite P in Hdone. injection Hdone as <-. auto.
  - destruct (POST_unvalidated_cases env N)
      as [(e & _ & P)|(fd & _ & [[_ P]|[[_ P]|[_ P]]])];
      rewrite P in Hdone; injection Hdone as <-; auto.
Qed.

(** X1: whatever happens, a response of the handler is one of five: the
    three 400 messages, the generic 500 message (the same body whatever
    went wrong), or the 200 body of a valid upload whose [rawText] is the
    trimmed output of the extraction worker. *)
Theorem response_is_one_of_five (env : Env) (r : Response)
  (Hdone : completion env = Normal r) :
  r = response_400 "No file provided"
  \/ r = response_400 "Invalid file type. Only PDF files are allowed."
  \/ r = response_400 "File too large. Maximum size is 5MB."
  \/ r = response_500
  \/ exists file text,
       uploaded env file /\ valid file
       /\ r = response_200 text (trim (stdoutBefore (extract_events env))) file.
Proof.
  unfold completion in Hdone.
  destruct (validated_dec env) as [(file & U & V)|N].
  - validated_cases env file U V P.
    destruct (writeFile_outcome env) as [e|].
    { rewrite P in Hdone. injection Hdone as <-. do 3 right. left. reflexivity. }
    destruct (extractTextFromFile_promise env) as [|raw|e] eqn:Ex.
    + rewrite P in Hdone. discriminate Hdone.
    + apply extractTextFromFile_resolved, extract_resolved in Ex.
      destruct Ex as [_ ->].
      destruct P as (mid & late & _ & _ & _ & P).
      destruct (preprocessText_promise env _) as [|text|e].
      * rewrite P in Hdone. discriminate Hdone.
      * destruct (unlink_outcome env 0%nat) as [e|]; rewrite P in Hdone;
          injection Hdone as <-.
        { do 3 right. left. reflexivity. }
        do 4 right. exists file, text.
        split; [exact U|split; [exact V|reflexivity]].
      * rewrite P in Hdone. injection Hdone as <-.
        do 3 right. left. reflexivity.
    + rewrite P in Hdone. injection Hdone as <-. do 3 right. left. reflexivity.
  - destruct (POST_unvalidated_cases env N)
      as [(e & _ & P)|(fd & _ & [[_ P]|[[_ P]|[_ P]]])];
      rewrite P in Hdone; injection Hdone as <-.
    + do 3 right. left. reflexivity.
    + left. reflexivity.
    + right; left. reflexivity.
    + do 2 right. left. reflexivity.
Qed.

Lemma response_is_one_of_five_witness :
  response_500 = response_400 "No file provided"
  \/ response_500 = response_400 "Invalid file type. Only PDF files are allowed."
  \/ response_500 = response_400 "File too large. Maximum size is 5MB."
  \/ response_500 = response_500
  \/ exists file text,
       uploaded corrupt_pdf file /\ valid file
       /\ response_500
          = response_200 text (trim (stdoutBefore (extract_events corrupt_pdf)))
              file.
Proof.
  apply (response_is_one_of_five corrupt_pdf response_500).
  vm_compute. reflexivity.
Defined.

Ltac clash H := vm_compute in H; discriminate H.

(** X2: which 400 a request gets.  "No file provided" answers a form
    without a [file] field or with an empty text field of that name;
    "Invalid file type" answers a non-empty text field or a file whose type
    is not [application/pdf], whatever its size (the type is checked
    first); "File too large" answers a PDF-typed file of more than
    5 * 1024 * 1024 bytes. *)
Theorem which_400_message (env : Env) :
  (completion env = Normal (response_400 "No file provided")
   <-> exists fd, request_formData env = inl fd
                  /\ (FormData_get fd (lit "file") = None
                      \/ FormData_get fd (lit "file") = Some (EntryString [])))
  /\ (completion env
      = Normal (response_400 "Invalid file type. Only PDF files are allowed.")
      <-> exists fd, request_formData env = inl fd
                     /\ ((exists c s, FormData_get fd (lit "file")
                                      = Some (EntryString (c :: s)))
                         \/ (exists f, FormData_get fd (lit "file")
                                       = Some (EntryFile f)
                                       /\ type f <> lit "application/pdf")))
  /\ (completion env
      = Normal (response_400 "File too large. Maximum size is 5MB.")
      <-> exists f, uploaded env f /\ type f = lit "application/pdf"
                    /\ size f > 5 * 1024 * 1024).
Proof.
  assert (Hvalid : forall msg,
            completion env = Normal (response_400 msg) ->
            forall file, uploaded env file -> ~ valid file).
  { intros msg Hdone file U V. unfold completion in Hdone.
    validated_cases env file U V P.
    destruct (writeFile_outcome env); [rewrite P in Hdone; clash Hdone|].
    destruct (extractTextFromFile_promise env) as [|raw|e];
      try (rewrite P in Hdone; clash Hdone).
    destruct P as (mid & late & _ & _ & _ & P).
    destruct (preprocessText_promise env raw);
      try (rewrite P in Hdone; clash Hdone).
    destruct (unlink_outcome env 0%nat); rewrite P in Hdone; clash Hdone. }
  split; [|split]; (split; [intros Hdone | ]).
  - destruct (POST_unvalidated_cases env (Hvalid _ Hdone))
      as [(e & _ & P)|(fd & F & [[G P]|[[_ P]|[_ P]]])];
      unfold completion in Hdone; rewrite P in Hdone; try clash Hdone.
    exists fd. auto.
  - intros (fd & F & G). unfold completion.
    destruct G as [G|G].
    + rewrite (POST_no_file env fd F G). reflexivity.
    + rewrite (POST_string_field env fd [] F G). reflexivity.
  - destruct (POST_unvalidated_cases env (Hvalid _ Hdone))
      as [(e & _ & P)|(fd & F & [[_ P]|[[G P]|[_ P]]])];
      unfold completion in Hdone; rewrite P in Hdone; try clash Hdone.
    exists fd. auto.
  - intros (fd & F & [(c & s & G)|(f & G & T)]); unfold completion.
    + rewrite (POST_string_field env fd (c :: s) F G). reflexivity.
    + rewrite (POST_wrong_type env f); [reflexivity | exists fd; auto | exact T].
  - destruct (POST_unvalidated_cases env (Hvalid _ Hdone))
      as [(e & _ & P)|(fd & F & [[_ P]|[[_ P]|[G P]]])];
      unfold completion in Hdone; rewrite P in Hdone; try clash Hdone.
    destruct G as (f & G & T & S). exists f. repeat split; auto.
    exists fd. auto.
  - intros (f & U & T & S). unfold completion.
    rewrite (POST_too_large env f U T S). reflexivity.
Qed.

(** X3: a request never ends exactly when a worker that was started
    never closes: the handler hangs iff it got as far as the extraction
    worker, [spawn] returned a child and that child emits neither
    ['close'] nor ['error'], or the extraction worker exited 0, [spawn]
    returned the anonymization child and that one emits neither.  A
    request that hangs has written its temp file and never tries to delete
    it. *)
Theorem hangs_iff_a_worker_never_closes (env : Env) :
  (completion env = NeverSettles
   <-> exists file,
         uploaded env file /\ valid file /\ writeFile_outcome env = None
         /\ ((exists events, extract_child env = Spawned events
                             /\ settledBy events = None)
             \/ (settledBy (extract_events env) = Some (Close (Some 0))
                 /\ exists events, anonymize_child env = Spawned events
                                   /\ settledBy events = None)))
  /\ (completion env = NeverSettles ->
      (exists file, acquired env (tempFilePath env file))
      /\ unlinked (trace env) = []).
Proof.
  unfold completion, acquired, trace.
  destruct (validated_dec env) as [(file & U & V)|N].
  - validated_cases env file U V P.
    destruct (writeFile_outcome env) as [e|].
    { rewrite P. split; [split; [discriminate|]|discriminate].
      intros (f & _ & _ & [=] & _). }
    destruct (extractTextFromFile_promise env) as [|raw|e] eqn:Ex.
    + rewrite P. apply extractTextFromFile_pending in Ex.
      split; [split; [intros _|reflexivity]|intros _].
      * exists file. split; [exact U|split; [exact V|split; [reflexivity|auto]]].
      * split; [exists file; split; [reflexivity|]; eexists _, _; reflexivity
               | reflexivity].
    + pose proof Ex as Ex'.
      apply extractTextFromFile_resolved, extract_resolved in Ex' as [Hc _].
      destruct P as (mid & late & _ & Hmid & _ & P).
      destruct (preprocessText_promise env raw) as [|text|e] eqn:Pre.
      * rewrite P. apply preprocessText_pending in Pre.
        split; [split; [intros _|reflexivity]|intros _].
        { exists file. split; [exact U|split; [exact V|split; [reflexivity|auto]]]. }
        split; [exists file; split; [reflexivity|]; eexists _, _; reflexivity|].
        cbn [snd]. rewrite unlinked_app, Hmid. reflexivity.
      * assert (Hs : ~ exists events, anonymize_child env = Spawned events
                                      /\ settledBy events = None).
        { intros H. apply (preprocessText_pending env raw) in H. congruence. }
        assert (Hx : ~ exists events, extract_child env = Spawned events
                                      /\ settledBy events = None).
        { intros H. apply extractTextFromFile_pending in H. congruence. }
        destruct (unlink_outcome env 0%nat); rewrite P;
          (split; [split; [discriminate|]|discriminate]);
          intros (f & _ & _ & _ & [H|[_ H]]); tauto.
      * assert (Hs : ~ exists events, anonymize_child env = Spawned events
                                      /\ settledBy events = None).
        { intros H. apply (preprocessText_pending env raw) in H. congruence. }
        assert (Hx : ~ exists events, extract_child env = Spawned events
                                      /\ settledBy events = None).
        { intros H. apply extractTextFromFile_pending in H. congruence. }
        rewrite P. split; [split; [discriminate|]|discriminate].
        intros (f & _ & _ & _ & [H|[_ H]]); tauto.
    + rewrite P. split; [split; [discriminate|]|discriminate].
      intros (f & _ & _ & _ & [H|[H _]]).
      * apply extractTextFromFile_pending in H. congruence.
      * assert (R : extractTextFromFile_promise env
                    = Resolved (trim (stdoutBefore (extract_events env))))
          by (apply extractTextFromFile_resolved, extract_resolved; auto).
        congruence.
  - destruct (POST_not_validated env N) as (r & tr & E & _).
    rewrite E. split; [split; [discriminate|]|discriminate].
    intros (f & U & V & _). destruct (N f U V).
Qed.

(** X4: when the temp file cannot be written, the answer is the generic
    500; the write error is logged, no worker is started and no deletion
    is attempted. *)
Theorem write_failure_is_500_without_cleanup (env : Env) (file : File)
  (e : JsError)
  (Hup : uploaded env file) (Hvalid : valid file)
  (Hfull : writeFile_outcome env = Some e) :
  completion env = Normal response_500
  /\ trace env =
     [FsWriteFile (tempFilePath env file) (arrayBuffer file);
      ConsoleError [VString (lit "Error processing file:"); VError e]].
Proof.
  validated_cases env file Hup Hvalid P. rewrite Hfull in P.
  unfold completion, trace. rewrite P. split; reflexivity.
Qed.

Lemma write_failure_is_500_without_cleanup_witness :
  completion disk_full = Normal response_500
  /\ trace disk_full =
     [FsWriteFile (tempFilePath disk_full cv_pdf) (arrayBuffer cv_pdf);
      ConsoleError [VString (lit "Error processing file:");
                    VError (MkError (lit "ENOSPC: no space left on device"))]].
Proof.
  apply (write_failure_is_500_without_cleanup disk_full cv_pdf).
  - eexists. split; reflexivity.
  - split; [reflexivity | cbn; lia].
  - reflexivity.
Defined.



Lemma console_spawns (logs : list Effect) :
  actions logs = [] -> filter isSpawn logs = [].
Proof.
  induction logs as [|e logs IH]; [reflexivity|].
  rewrite actions_cons. destruct e; cbn; try discriminate; auto.
Qed.

Lemma spawns_of_actions (tr : list Effect) :
  filter isSpawn (actions tr) = filter isSpawn tr.
Proof.
  induction tr as [|e tr IH]; [reflexivity|].
  rewrite actions_cons. destruct e; cbn; rewrite IH; reflexivity.
Qed.

(** X6: the order of what a request does to the file system and to
    processes: never a worker before the temp file is written, never the
    anonymization worker without the extraction worker before it, never a
    deletion before the extraction worker was started, never more than two
    workers or two deletions, and nothing after a deletion but a second
    one. *)
Theorem actions_follow_the_pipeline (env : Env) :
  actions (trace env) = []
  \/ exists file,
       uploaded env file /\ valid file
       /\ let path := tempFilePath env file in
          let written := FsWriteFile path (arrayBuffer file) in
          let extracting :=
            ChildSpawn (lit "python3") [extract_script env; path] in
          actions (trace env) = [written]
          \/ actions (trace env) = [written; extracting]
          \/ actions (trace env) = [written; extracting; FsUnlink path]
          \/ exists raw,
               let anonymizing :=
                 ChildSpawn (lit "python3") [anonymize_script env; raw] in
               actions (trace env) = [written; extracting; anonymizing]
               \/ actions (trace env)
                  = [written; extracting; anonymizing; FsUnlink path]
               \/ actions (trace env)
                  = [written; extracting; anonymizing;
                     FsUnlink path; FsUnlink path].
Proof.
  unfold trace.
  destruct (validated_dec env) as [(file & U & V)|N].
  - right. exists file. split; [exact U|split; [exact V|]]. cbv zeta.
    validated_cases env file U V P.
    destruct (writeFile_outcome env) as [e|]; [rewrite P; left; reflexivity|].
    destruct (extractTextFromFile_promise env) as [|raw|e].
    + rewrite P. right; left. reflexivity.
    + destruct P as (mid & late & Hmid & _ & Hlate & P). do 3 right. exists raw.
      pose proof (console_actions _ Hlate) as Hla.
      destruct (preprocessText_promise env raw) as [|text|e].
      * rewrite P. left. cbn [snd].
        change [FsWriteFile (tempFilePath env file) (arrayBuffer file);
                ChildSpawn (lit "python3")
                  [extract_script env; tempFilePath env file]]
          with ([FsWriteFile (tempFilePath env file) (arrayBuffer file)]
                ++ [ChildSpawn (lit "python3")
                      [extract_script env; tempFilePath env file]]).
        rewrite !actions_app, Hmid. reflexivity.
      * destruct (unlink_outcome env 0%nat); rewrite P; cbn [snd];
          [right; right | right; left];
          rewrite (actions_app [_; _]), actions_app, Hmid,
            (actions_cons (FsUnlink _));
          cbn [isConsole]; rewrite ?actions_app, Hla; reflexivity.
      * rewrite P. right; left. cbn [snd].
        rewrite (actions_app [_; _]), actions_app, Hmid. reflexivity.
    + rewrite P. right; right; left. reflexivity.
  - left. destruct (POST_not_validated env N) as (r & tr & E & _ & A & _).
    rewrite E. exact A.
Qed.

(** X7: for a valid upload written to its temp file, the anonymization
    worker is started exactly when the extraction worker exited 0, once
    and after it, with the trimmed extracted text as its one argument
    after the script; otherwise the extraction worker is the only process
    of the request. *)
Theorem anonymizer_runs_iff_extraction_exits_0 (env : Env) (file : File)
  (Hup : uploaded env file) (Hvalid : valid file)
  (Hwritten : writeFile_outcome env = None) :
  let extracting :=
    ChildSpawn (lit "python3") [extract_script env; tempFilePath env file] in
  (settledBy (extract_events env) = Some (Close (Some 0)) ->
   filter isSpawn (trace env)
   = [extracting;
      ChildSpawn (lit "python3")
        [anonymize_script env; trim (stdoutBefore (extract_events env))]])
  /\ (settledBy (extract_events env) <> Some (Close (Some 0)) ->
      filter isSpawn (trace env) = [extracting]).
Proof.
  cbv zeta. validated_cases env file Hup Hvalid P. rewrite Hwritten in P.
  unfold trace.
  destruct (extractTextFromFile_promise env) as [|raw|e] eqn:Ex.
  - rewrite P. apply extractTextFromFile_pending in Ex.
    destruct Ex as (events & Hch & Hnone).
    split; [|reflexivity]. unfold extract_events. rewrite Hch. cbn [events_of].
    congruence.
  - apply extractTextFromFile_resolved, extract_resolved in Ex as [Hc ->].
    split; [intros _ | congruence].
    destruct P as (mid & late & Hmid & _ & Hlate & P).
    assert (Hl : filter isSpawn late = [])
      by (apply console_spawns, console_actions, Hlate).
    assert (Hs : filter isSpawn mid
                 = [ChildSpawn (lit "python3")
                      [anonymize_script env;
                       trim (stdoutBefore (extract_events env))]])
      by (rewrite <- spawns_of_actions, Hmid; reflexivity).
    destruct (preprocessText_promise env _) as [|text|e].
    + rewrite P. cbn [snd]. rewrite filter_app, Hs. reflexivity.
    + destruct (unlink_outcome env 0%nat); rewrite P; cbn [snd];
        rewrite !filter_app, Hs; cbn [filter isSpawn];
        rewrite ?filter_app, Hl; reflexivity.
    + rewrite P. cbn [snd]. rewrite !filter_app, Hs. reflexivity.
  - rewrite P. split; [|reflexivity].
    intros Hc.
    assert (R : extractTextFromFile_promise env
                = Resolved (trim (stdoutBefore (extract_events env))))
      by (apply extractTextFromFile_resolved, extract_resolved; auto).
    congruence.
Qed.

Lemma anonymizer_runs_iff_extraction_exits_0_witness :
  filter isSpawn (trace corrupt_pdf)
  = [ChildSpawn (lit "python3")
       [extract_script corrupt_pdf; tempFilePath corrupt_pdf cv_pdf]].
Proof.
  refine (proj2 (anonymizer_runs_iff_extraction_exits_0 corrupt_pdf cv_pdf
                   _ _ _) _).
  - eexists. split; reflexivity.
  - split; [reflexivity | cbn; lia].
  - reflexivity.
  - discriminate.
Defined.









Lemma settledBy_app (events more : list ChildEvent) :
  settledBy events <> None ->
  settledBy (events ++ more) = settledBy events
  /\ stdoutBefore (events ++ more) = stdoutBefore events
  /\ stderrBefore (events ++ more) = stderrBefore events.
Proof.
  induction events as [|ev rest IH]; cbn; [intros H; destruct (H eq_refl)|].
  destruct ev as [d|d|code|err]; cbn; intros H;
    try (destruct (IH H) as (-> & -> & ->)); repeat split; reflexivity.
Qed.



Lemma trimStart_snoc (l : jsstring) (c : N) :
  isWhiteSpace c = false -> trimStart (l ++ [c]) = trimStart l ++ [c].
Proof.
  intros H. induction l as [|a l IH]; cbn.
  - rewrite H. reflexivity.
  - destruct (isWhiteSpace a); [exact IH | reflexivity].
Qed.

Lemma trimStart_head (s : jsstring) (c : N) (r : jsstring) :
  trimStart s = c :: r -> isWhiteSpace c = false.
Proof.
  induction s as [|a s IH]; cbn; [discriminate|].
  destruct (isWhiteSpace a) eqn:E; [exact IH|]. intros [= <- _]. exact E.
Qed.

Lemma trim_hasNoOuterWhiteSpace (s : jsstring) : hasNoOuterWhiteSpace (trim s).
Proof.
  unfold trim, trimEnd, hasNoOuterWhiteSpace.
  destruct (trimStart s) as [|c r] eqn:E; [exact I|].
  pose proof (trimStart_head _ _ _ E) as Hc.
  cbn [rev]. rewrite (trimStart_snoc _ _ Hc), rev_app_distr. cbn [rev app].
  split; [exact Hc|].
  destruct (trimStart (rev r)) as [|h t] eqn:Er; [exact Hc|].
  cbn [rev]. rewrite app_comm_cons, last_last.
  exact (trimStart_head _ _ _ Er).
Qed.

(** X11: in a successful response neither [text] nor [rawText] begins or
    ends with white space: both come out of [trim], [text] also when
    the anonymization stage fell back to the raw text. *)
Theorem successful_texts_are_trimmed (env : Env) (file : File)
  (raw text : jsstring)
  (Hdone : completion env = Normal (response_200 text raw file)) :
  hasNoOuterWhiteSpace raw /\ hasNoOuterWhiteSpace text.
Proof.
  destruct (success_inversion env _ Hdone eq_refl)
    as (file' & raw' & text' & _ & _ & _ & Ex & Pre & _ & E).
  injection E as -> -> _ _.
  apply extract_resolved in Ex as [_ ->].
  split; [apply trim_hasNoOuterWhiteSpace|].
  unfold preprocess_promise in Pre.
  destruct (settledBy (anonymize_events env)) as [[d|d|code|err]|];
    try discriminate.
  - destruct (code_is_zero code); injection Pre as <-;
      apply trim_hasNoOuterWhiteSpace.
  - injection Pre as <-. apply trim_hasNoOuterWhiteSpace.
Qed.

Lemma successful_texts_are_trimmed_witness :
  hasNoOuterWhiteSpace (lit "John Doe, Software Engineer")
  /\ hasNoOuterWhiteSpace (lit "[NAME], Software Engineer").
Proof.
  apply (successful_texts_are_trimmed scenario_A cv_pdf).
  vm_compute. reflexivity.
Defined.

(** * More on the route *)

Lemma POST_summary (env : Env) (file : File) :
  uploaded env file -> valid file ->
  (completion env, actions (trace env)) = summary env file.
Proof.
  intros U V. unfold completion, trace, summary.
  validated_cases env file U V P.
  destruct (writeFile_outcome env) as [e|]; [rewrite P; reflexivity|].
  destruct (extractTextFromFile_promise env) as [|raw|e];
    try (rewrite P; reflexivity).
  destruct P as (mid & late & Hmid & _ & Hlate & P).
  pose proof (console_actions _ Hlate) as Hla.
  destruct (preprocessText_promise env raw) as [|text|e].
  - rewrite P. cbn [fst snd].
    rewrite (actions_app [_; _]), Hmid. reflexivity.
  - destruct (unlink_outcome env 0%nat); rewrite P; cbn [fst snd];
      rewrite (actions_app [_; _]), actions_app, Hmid,
        (actions_cons (FsUnlink _));
      cbn [isConsole]; rewrite ?actions_app, Hla; reflexivity.
  - rewrite P. cbn [fst snd].
    rewrite (actions_app [_; _]), actions_app, Hmid. reflexivity.
Qed.

Lemma In_actions (e : Effect) (tr : list Effect) :
  In e tr -> isConsole e = false -> In e (actions tr).
Proof.
  intros H C. apply filter_In. split; [exact H|]. rewrite C. reflexivity.
Qed.

Lemma In_unlinked (q : jsstring) (tr : list Effect) :
  In q (unlinked tr) -> In (FsUnlink q) tr.
Proof.
  induction tr as [|e tr IH]; [intros []|].
  rewrite unlinked_cons. destruct e; try (intros H; right; apply IH, H).
  intros [->|H]; [left; reflexivity | right; apply IH, H].
Qed.

(** The only file a request touches is its temp file. *)
Lemma POST_touches_the_temp_file (env : Env) (file : File) (q : jsstring) :
  uploaded env file ->
  (exists data, In (FsWriteFile q data) (trace env))
  \/ In q (unlinked (trace env)) ->
  q = tempFilePath env file.
Proof.
  intros U H.
  assert (Hq : exists e, In e (actions (trace env))
                         /\ match e with
                            | FsWriteFile q' _ | FsUnlink q' => q' = q
                            | _ => False
                            end).
  { destruct H as [[data H]|H].
    - exists (FsWriteFile q data). split; [apply In_actions; auto|reflexivity].
    - exists (FsUnlink q).
      split; [apply In_actions; [apply In_unlinked, H|]|]; reflexivity. }
  clear H. destruct Hq as (e & He & Hq).
  destruct (valid_dec file) as [V|V].
  - pose proof (POST_summary env file U V) as S.
    apply (f_equal snd) in S. cbn [snd] in S. rewrite S in He.
    unfold summary in He.
    destruct (writeFile_outcome env).
    { destruct He as [<-|[]]. symmetry. exact Hq. }
    destruct (extractTextFromFile_promise env) as [|raw|e'].
    + destruct He as [<-|[<-|[]]]; [symmetry; exact Hq | destruct Hq].
    + destruct (preprocessText_promise env raw) as [|text|e''];
        [| destruct (unlink_outcome env 0%nat) |];
        repeat (destruct He as [<-|He];
                [try (symmetry; exact Hq); try (destruct Hq)|]);
        destruct He.
    + destruct He as [<-|[<-|[<-|[]]]];
        [symmetry; exact Hq | destruct Hq | symmetry; exact Hq].
  - assert (N : forall f, uploaded env f -> ~ valid f).
    { intros f (fd & F & G). destruct U as (fd' & F' & G').
      assert (f = file) by congruence. subst f. exact V. }
    destruct (POST_not_validated env N) as (r & tr & E & _ & A & _).
    unfold trace in He. rewrite E in He. cbn [snd] in He.
    rewrite A in He. destruct He.
Qed.

(** X12: a filename without a path separator cannot leave the temp
    directory.  When the temp directory is given by an absolute
    normalized path, every file the request writes or deletes is
    [<tmpdir>/temp_<timestamp>_<filename>], an entry of that directory. *)
Theorem plain_filenames_stay_in_tmpdir (env : Env) (file : File)
  (Hup : uploaded env file)
  (Hdir : isDirectoryPath (tmpdir env))
  (Hname : ~ In SLASH (name file)) :
  let p := tmpdir env ++ SLASH :: lit "temp_"
           ++ Number_toString (Date_now env) ++ lit "_" ++ name file in
  inDirectory (tmpdir env) p
  /\ (forall q data, In (FsWriteFile q data) (trace env) -> q = p)
  /\ (forall q, In q (unlinked (trace env)) -> q = p).
Proof.
  cbv zeta.
  pose proof (temp_name_plain (Date_now env) (name file) Hname) as Hplain.
  assert (Hp : tempFilePath env file
               = tmpdir env ++ SLASH :: lit "temp_"
                 ++ Number_toString (Date_now env) ++ lit "_" ++ name file).
  { rewrite tempFilePath_join. apply (join_in_directory _ _ Hdir Hplain). }
  rewrite <- Hp. split; [|split].
  - exists (temp_name (Date_now env) (name file)).
    split; [apply Hplain|split; [apply Hplain|exact Hp]].
  - intros q data H.
    apply (POST_touches_the_temp_file env file q Hup). left. exists data. exact H.
  - intros q H.
    apply (POST_touches_the_temp_file env file q Hup). right. exact H.
Qed.

(** Scenario A of the specification: one file written, the same one
    deleted, in [/tmp]. *)
Lemma plain_filenames_stay_in_tmpdir_witness :
  inDirectory (lit "/tmp") (lit "/tmp/temp_1700000000000_cv.pdf")
  /\ (forall q data, In (FsWriteFile q data) (trace scenario_A) ->
      q = lit "/tmp/temp_1700000000000_cv.pdf")
  /\ (forall q, In q (unlinked (trace scenario_A)) ->
      q = lit "/tmp/temp_1700000000000_cv.pdf").
Proof.
  apply (plain_filenames_stay_in_tmpdir scenario_A cv_pdf).
  - eexists. split; reflexivity.
  - repeat split.
  - vm_compute. intuition discriminate.
Defined.

(** X13: only the first [file] field of a form counts: other fields, and
    further files under the same name, change nothing to what the handler
    answers and does. *)
Theorem only_the_first_file_field_counts (env : Env) (fd : FormData)
  (v : FormDataEntryValue)
  (Hform : request_formData env = inl fd)
  (Hfirst : FormData_get fd (lit "file") = Some v) :
  POST env [] = POST (with_form env [(lit "file", v)]) [].
Proof.
  unfold POST, try_catch, formData. rewrite Hform.
  cbn [request_formData with_form]. run. rewrite Hfirst.
  reflexivity.
Qed.

Lemma only_the_first_file_field_counts_witness :
  POST two_files [] = POST scenario_A [].
Proof.
  refine (only_the_first_file_field_counts two_files _ (EntryFile cv_pdf) _ _).
  - reflexivity.
  - reflexivity.
Defined.

(** X14: the handler prints the raw extracted text, and the processed
    text, on the server console as soon as both stages are over, whether
    or not the temp file can then be deleted. *)
Theorem extracted_text_is_printed (env : Env) (file : File)
  (raw text : jsstring)
  (Hup : uploaded env file) (Hvalid : valid file)
  (Hwritten : writeFile_outcome env = None)
  (Hraw : extract_promise (extract_events env) = Resolved raw)
  (Htext : preprocess_promise raw (anonymize_events env) = Resolved text) :
  exists before after,
    trace env =
    before
    ++ [ConsoleLog [VString (lit "=== RAW EXTRACTED TEXT ===")];
        ConsoleLog [VString raw];
        ConsoleLog [VString (10%N :: lit "=== ANONYMIZED TEXT ===")];
        ConsoleLog [VString text];
        ConsoleLog [VString (lit "========================" ++ [10%N])];
        FsUnlink (tempFilePath env file)]
    ++ after.
Proof.
  destruct Hup as (fd & Hform & Hfile). destruct Hvalid as (Htype & Hsize).
  assert (Hgt : (size file >? 5242880) = false)
    by (rewrite Z.gtb_ltb; apply Z.ltb_ge; exact Hsize).
  unfold trace. remember (POST env []) as R eqn:ER.
  unfold POST, try_catch, formData in ER. rewrite Hform in ER.
  run_in ER. rewrite Hfile, Htype, jsstring_eqb_refl in ER.
  cbn in ER. rewrite Hgt in ER.
  unfold writeFile in ER. run_in ER. rewrite Hwritten in ER.
  apply extractTextFromFile_resolved in Hraw.
  apply preprocessText_resolved in Htext.
  rewrite extractTextFromFile_run, Hraw in ER. cbn in ER.
  destruct (preprocessText_run env raw
              [FsWriteFile (tempFilePath env file) (arrayBuffer file);
               ChildSpawn (lit "python3")
                 [extract_script env; tempFilePath env file]])
    as (logs & _ & Epre).
  rewrite Epre, Htext in ER. cbn in ER.
  destruct (unlink_during_late env (tempFilePath env file) raw)
    as (late & _ & Edur).
  rewrite Edur in ER.
  exists ([FsWriteFile (tempFilePath env file) (arrayBuffer file);
           ChildSpawn (lit "python3")
             [extract_script env; tempFilePath env file]]
          ++ ConsoleLog [VString (lit "Starting preprocessing...")]
          :: ChildSpawn (lit "python3") [anonymize_script env; raw] :: logs).
  destruct (unlink_outcome env _).
  - rewrite unlink_run in ER.
    destruct (unlink_outcome env _); subst R; cbn [snd]; eexists;
      rewrite <- ?app_assoc; cbn [app]; rewrite <- ?app_assoc; cbn [app];
      reflexivity.
  - subst R; cbn [snd]. exists late.
    rewrite <- ?app_assoc; cbn [app]; rewrite <- ?app_assoc; cbn [app].
    reflexivity.
Qed.

Lemma extracted_text_is_printed_witness :
  exists before after,
    trace deletion_refused =
    before
    ++ [ConsoleLog [VString (lit "=== RAW EXTRACTED TEXT ===")];
        ConsoleLog [VString (lit "John Doe, Software Engineer")];
        ConsoleLog [VString (10%N :: lit "=== ANONYMIZED TEXT ===")];
        ConsoleLog [VString (lit "[NAME], Software Engineer")];
        ConsoleLog [VString (lit "========================" ++ [10%N])];
        FsUnlink (tempFilePath deletion_refused cv_pdf)]
    ++ after.
Proof.
  apply (extracted_text_is_printed deletion_refused cv_pdf).
  - eexists. split; reflexivity.
  - split; [reflexivity | cbn; lia].
  - reflexivity.
  - vm_compute. reflexivity.
  - vm_compute. reflexivity.
Defined.

Lemma preprocessText_spawn_throws (env : Env) (text : jsstring)
  (tr : list Effect) (e : JsError) :
  anonymize_child env = SpawnThrows e ->
  preprocessText env text tr =
  (Throw e,
   tr ++ [ConsoleLog [VString (lit "Starting preprocessing...")];
          ChildSpawn (lit "python3") [anonymize_script env; text]]).
Proof.
  intros H. unfold preprocessText, anonymize_script. rewrite H. run.
  rewrite <- app_assoc. reflexivity.
Qed.

(** X21: no fallback when [spawn] itself throws (Node refuses an argument
    that holds a NUL, or an argument list that is too long).  Whether it
    is the extraction worker or, after a successful extraction, the
    anonymization worker that cannot be spawned, the temp file is deleted
    once, the exception is logged (or the error of the deletion, if that
    fails too), and the answer is the generic 500: a text that cannot be
    passed to the anonymization worker is not returned as it is. *)
Theorem spawn_exception_is_500 (env : Env) (file : File) (e : JsError)
  (Hup : uploaded env file) (Hvalid : valid file)
  (Hwritten : writeFile_outcome env = None) :
  let path := tempFilePath env file in
  let written := FsWriteFile path (arrayBuffer file) in
  let extracting := ChildSpawn (lit "python3") [extract_script env; path] in
  let logged :=
    ConsoleError [VString (lit "Error processing file:");
                  VError match unlink_outcome env 0%nat with
                         | None => e
                         | Some e' => e'
                         end] in
  (extract_child env = SpawnThrows e ->
   completion env = Normal response_500
   /\ trace env = [written; extracting; FsUnlink path; logged])
  /\ (settledBy (extract_events env) = Some (Close (Some 0)) ->
      anonymize_child env = SpawnThrows e ->
      completion env = Normal response_500
      /\ trace env =
         [written; extracting;
          ConsoleLog [VString (lit "Starting preprocessing...")];
          ChildSpawn (lit "python3")
            [anonymize_script env; trim (stdoutBefore (extract_events env))];
          FsUnlink path; logged]).
Proof.
  cbv zeta. split.
  - intros Hthrows.
    assert (Ex : extractTextFromFile_promise env = Rejected e)
      by (apply extractTextFromFile_rejected; left; exact Hthrows).
    validated_cases env file Hup Hvalid P. rewrite Hwritten, Ex in P.
    unfold completion, trace. rewrite P.
    destruct (unlink_outcome env 0%nat); split; reflexivity.
  - intros Hextracted Hthrows.
    assert (Ex : extractTextFromFile_promise env
                 = Resolved (trim (stdoutBefore (extract_events env))))
      by (apply extractTextFromFile_resolved, extract_resolved; auto).
    destruct Hup as (fd & Hform & Hfile). destruct Hvalid as (Htype & Hsize).
    assert (Hgt : (size file >? 5242880) = false)
      by (rewrite Z.gtb_ltb; apply Z.ltb_ge; exact Hsize).
    unfold completion, trace. remember (POST env []) as R eqn:ER.
    unfold POST, try_catch, formData in ER. rewrite Hform in ER.
    run_in ER. rewrite Hfile, Htype, jsstring_eqb_refl in ER.
    cbn in ER. rewrite Hgt in ER.
    unfold writeFile in ER. run_in ER. rewrite Hwritten in ER.
    rewrite extractTextFromFile_run, Ex in ER. cbn in ER.
    rewrite (preprocessText_spawn_throws env _ _ e Hthrows) in ER.
    rewrite unlink_run in ER. cbn [app] in ER.
    rewrite !unlinked_cons in ER.
    change (unlinked []) with (@nil jsstring) in ER. cbn in ER.
    subst R. destruct (unlink_outcome env 0%nat); split; reflexivity.
Qed.

(** A NUL in the extracted text: HTTP 500, not the raw text. *)
Lemma spawn_exception_is_500_witness :
  completion nul_in_text = Normal response_500
  /\ trace nul_in_text =
     [FsWriteFile (lit "/tmp/temp_1700000000000_cv.pdf") [];
      ChildSpawn (lit "python3")
        [lit "/app/scripts/extract_text.py";
         lit "/tmp/temp_1700000000000_cv.pdf"];
      ConsoleLog [VString (lit "Starting preprocessing...")];
      ChildSpawn (lit "python3")
        [lit "/app/scripts/anonymize_personal_info.py";
         lit "John" ++ [0%N] ++ lit "Doe"];
      FsUnlink (lit "/tmp/temp_1700000000000_cv.pdf");
      ConsoleError
        [VString (lit "Error processing file:");
         VError (MkError
                   (lit "The argument 'args[1]' must be a string without null bytes."))]].
Proof.
  refine (proj2 (spawn_exception_is_500 nul_in_text cv_pdf
                   (MkError
                      (lit "The argument 'args[1]' must be a string without null bytes."))
                   _ _ _) _ _).
  - eexists. split; reflexivity.
  - split; [reflexivity | cbn; lia].
  - reflexivity.
  - reflexivity.
  - reflexivity.
Defined.

Lemma late_extraction_events (env : Env)
  (late_extract late_anonymize : list ChildEvent) :
  extractTextFromFile_promise env <> Pending ->
  extractTextFromFile_promise
    (with_late_events env late_extract late_anonymize)
  = extractTextFromFile_promise env.
Proof.
  unfold extractTextFromFile_promise. cbn [extract_child with_late_events].
  destruct (extract_child env) as [e|events]; [reflexivity|].
  cbn [emitting]. rewrite extract_pending_iff. intros H.
  destruct (settledBy_app _ late_extract H) as (E1 & E2 & E3).
  unfold extract_promise. rewrite E1, E2, E3. reflexivity.
Qed.

Lemma late_anonymization_events (env : Env)
  (late_extract late_anonymize : list ChildEvent) (raw : jsstring) :
  preprocessText_promise env raw <> Pending ->
  preprocessText_promise
    (with_late_events env late_extract late_anonymize) raw
  = preprocessText_promise env raw.
Proof.
  unfold preprocessText_promise. cbn [anonymize_child with_late_events].
  destruct (anonymize_child env) as [e|events]; [reflexivity|].
  cbn [emitting]. rewrite preprocess_pending_iff. intros H.
  destruct (settledBy_app _ late_anonymize H) as (E1 & E2 & E3).
  unfold preprocess_promise. rewrite E1, E2. reflexivity.
Qed.

(** A request that is turned away does not look at anything but its form. *)
Lemma POST_turned_away (env env' : Env) :
  request_formData env' = request_formData env ->
  (forall file, uploaded env file -> ~ valid file) ->
  POST env' [] = POST env [].
Proof.
  intros F N.
  destruct (POST_unvalidated_cases env N)
    as [(e & Fe & P)|(fd & Ffd & [[G P]|[[G P]|[G P]]])];
    rewrite P; rewrite <- F in *.
  - apply POST_formData_rejects, Fe.
  - destruct G as [G|G].
    + apply (POST_no_file env' fd Ffd G).
    + apply (POST_string_field env' fd [] Ffd G).
  - destruct G as [(c & s & G)|(f & G & T)].
    + apply (POST_string_field env' fd (c :: s) Ffd G).
    + apply (POST_wrong_type env' f); [exists fd; auto | exact T].
  - destruct G as (f & G & T & S).
    apply (POST_too_large env' f); [exists fd; auto | exact T | exact S].
Qed.

(** X22: what the children emit once their promises are settled (the
    ['close'] that follows the ['error'] of a failed start, for one) only
    adds console output: a request that comes to an end gets the same
    answer, and does the same things to the file system and to processes
    in the same order, whatever its children emit afterwards. *)
Theorem late_events_only_add_console_output (env : Env)
  (late_extract late_anonymize : list ChildEvent)
  (Hends : completion env <> NeverSettles) :
  let env' := with_late_events env late_extract late_anonymize in
  completion env' = completion env
  /\ actions (trace env') = actions (trace env).
Proof.
  cbv zeta.
  destruct (validated_dec env) as [(file & U & V)|N].
  - pose proof (POST_summary env file U V) as S.
    pose proof (POST_summary
                  (with_late_events env late_extract late_anonymize) file U V)
      as S'.
    assert (E : summary (with_late_events env late_extract late_anonymize) file
                = summary env file).
    { apply (f_equal fst) in S. cbn [fst] in S. rewrite S in Hends.
      unfold summary in Hends |- *.
      change (writeFile_outcome
                (with_late_events env late_extract late_anonymize))
        with (writeFile_outcome env).
      destruct (writeFile_outcome env); [reflexivity|].
      destruct (extractTextFromFile_promise env) as [|raw|e] eqn:Ex.
      - destruct (Hends eq_refl).
      - rewrite late_extraction_events, Ex by (rewrite Ex; discriminate).
        destruct (preprocessText_promise env raw) as [|text|e] eqn:Pre.
        + destruct (Hends eq_refl).
        + rewrite late_anonymization_events, Pre by (rewrite Pre; discriminate).
          reflexivity.
        + rewrite late_anonymization_events, Pre by (rewrite Pre; discriminate).
          reflexivity.
      - rewrite late_extraction_events, Ex by (rewrite Ex; discriminate).
        reflexivity. }
    rewrite E, <- S in S'. injection S' as -> ->. split; reflexivity.
  - unfold completion, trace.
    rewrite (POST_turned_away env
               (with_late_events env late_extract late_anonymize) eq_refl N).
    split; reflexivity.
Qed.

(** The anonymization worker cannot be started: the ['close'] that
    follows its ['error'] changes nothing to the fallback. *)
Lemma late_events_only_add_console_output_witness :
  completion
    (with_late_events
       (scenario cv_pdf
          [StdoutData (lit "John Doe, Software Engineer"); Close (Some 0)]
          [ChildError (MkError (lit "spawn python3 ENOENT"))]
          (fun _ => None))
       [] [Close (Some (-2))])
  = Normal (response_200 (lit "John Doe, Software Engineer")
              (lit "John Doe, Software Engineer") cv_pdf).
Proof.
  refine (eq_trans
            (proj1 (late_events_only_add_console_output
                      (scenario cv_pdf
                         [StdoutData (lit "John Doe, Software Engineer");
                          Close (Some 0)]
                         [ChildError (MkError (lit "spawn python3 ENOENT"))]
                         (fun _ => None))
                      [] [Close (Some (-2))] _)) _).
  - vm_compute. discriminate.
  - vm_compute. reflexivity.
Defined.

(** * Properties of the page *)

Ltac alerts_end :=
  unfold Page.alerts; cbn; rewrite ?flat_map_app; cbn;
  rewrite ?app_nil_r, <- ?app_assoc; reflexivity.

(** X15: an upload leaves the page busy only while the network is silent.
    [handleFileUpload] never throws; it stays pending exactly when [fetch]
    or the reading of the body stays pending, and then [isProcessing] is
    left [true]; whenever it ends, [isProcessing] is [false] again.  It
    touches neither [uploadedFile] nor [isDragActive]. *)
Theorem upload_ends_idle (net : Page.FetchOutcome) (file : File)
  (b : Page.Browser) :
  let c := fst (Page.handleFileUpload net file b) in
  let b' := snd (Page.handleFileUpload net file b) in
  (c = NeverSettles
   <-> net = Page.NoAnswer \/ exists s, net = Page.Answer s NeverSettles)
  /\ (c = NeverSettles -> Page.isProcessing (Page.state b') = true)
  /\ (c <> NeverSettles ->
      c = Normal tt /\ Page.isProcessing (Page.state b') = false)
  /\ Page.uploadedFile (Page.state b') = Page.uploadedFile (Page.state b)
  /\ Page.isDragActive (Page.state b') = Page.isDragActive (Page.state b).
Proof.
  destruct b as [st es]. cbv zeta.
  destruct net as [e| |s [obj|e|]].
  - cbn. repeat apply conj; try reflexivity; try discriminate.
    + intros [[=]|[s [=]]].
    + intros _. split; reflexivity.
  - cbn. repeat apply conj; try reflexivity; try discriminate; auto.
    intros H. destruct (H eq_refl).
  - unfold Page.handleFileUpload, Page.try_finally, Page.try_catch, Page.bind,
      Page.fetch, Page.json. cbn.
    destruct (Page.ok (s, Normal obj)); cbn;
      repeat apply conj; try reflexivity; try discriminate;
      try (intros [[=]|[s' [=]]]); intros _; split; reflexivity.
  - unfold Page.handleFileUpload, Page.try_finally, Page.try_catch, Page.bind,
      Page.fetch, Page.json. cbn.
    destruct (Page.ok (s, Throw e)); cbn;
      repeat apply conj; try reflexivity; try discriminate;
      try (intros [[=]|[s' [=]]]); intros _; split; reflexivity.
  - unfold Page.handleFileUpload, Page.try_finally, Page.try_catch, Page.bind,
      Page.fetch, Page.json. cbn.
    destruct (Page.ok (s, NeverSettles)); cbn;
      repeat apply conj; try reflexivity; try discriminate;
      try (intros _; right; exists s; reflexivity);
      intros H; destruct (H eq_refl).
Qed.

(** X16: an upload that ends either got an ok answer with a JSON body, and
    then [extractedText] is the [text] of that body and nobody is alerted,
    or it alerts the user exactly once and leaves [extractedText] empty:
    the text of an earlier upload never survives a failed one. *)
Theorem upload_shows_text_or_alerts_once (net : Page.FetchOutcome)
  (file : File) (b : Page.Browser)
  (Hends : fst (Page.handleFileUpload net file b) <> NeverSettles) :
  let b' := snd (Page.handleFileUpload net file b) in
  (exists s obj,
     net = Page.Answer s (Normal obj) /\ 200 <= s <= 299
     /\ Page.extractedText (Page.state b') = Page.get obj "text"
     /\ Page.alerts b' = Page.alerts b)
  \/ (exists m,
        Page.alerts b' = Page.alerts b ++ [m]
        /\ Page.extractedText (Page.state b') = Some (JString [])).
Proof.
  destruct b as [st es]. cbv zeta.
  unfold Page.handleFileUpload, Page.try_finally, Page.try_catch, Page.bind,
    Page.fetch, Page.json in Hends |- *.
  destruct net as [e| |s [obj|e|]]; cbn in Hends |- *.
  - right. eexists. split; [alerts_end | reflexivity].
  - destruct (Hends eq_refl).
  - unfold Page.ok in *. cbn [fst] in *.
    destruct ((200 <=? s) && (s <=? 299)) eqn:E; cbn in Hends |- *.
    + left. exists s, obj. apply andb_prop in E as [E1 E2].
      apply Z.leb_le in E1, E2.
      split; [reflexivity|split; [lia|split; [reflexivity|alerts_end]]].
    + right. eexists. split; [alerts_end | reflexivity].
  - destruct (Page.ok (s, Throw e)); cbn in Hends |- *;
      right; eexists; (split; [alerts_end | reflexivity]).
  - destruct (Page.ok (s, NeverSettles)); cbn in Hends; destruct (Hends eq_refl).
Qed.

Lemma upload_shows_text_or_alerts_once_witness :
  let b' := snd (Page.handleFileUpload
                   (Page.NetworkError (MkError (lit "Failed to fetch")))
                   cv_pdf Page.start) in
  (exists s obj,
     Page.NetworkError (MkError (lit "Failed to fetch"))
     = Page.Answer s (Normal obj) /\ 200 <= s <= 299
     /\ Page.extractedText (Page.state b') = Page.get obj "text"
     /\ Page.alerts b' = Page.alerts Page.start)
  \/ (exists m,
        Page.alerts b' = Page.alerts Page.start ++ [m]
        /\ Page.extractedText (Page.state b') = Some (JString [])).
Proof.
  apply (upload_shows_text_or_alerts_once
           (Page.NetworkError (MkError (lit "Failed to fetch")))
           cv_pdf Page.start).
  discriminate.
Defined.

(** X17: a drop uploads the first accepted file and only that one, and
    [uploadedFile] is that file from then on, whether the upload succeeds,
    fails or never ends; a drop of no file does nothing at all. *)
Theorem drop_uploads_the_first_file (net : Page.FetchOutcome)
  (b : Page.Browser) :
  Page.onDrop net [] b = (Normal tt, b)
  /\ forall file others,
       let b' := snd (Page.onDrop net (file :: others) b) in
       Page.onDrop net (file :: others) b = Page.onDrop net [file] b
       /\ Page.uploadedFile (Page.state b') = Some file
       /\ exists rest,
            Page.effects b' =
            Page.effects b
            ++ Page.Fetch (lit "/api/extract-text") (lit "POST")
                 [(lit "file", EntryFile file)] :: rest.
Proof.
  split; [reflexivity|]. intros file others. cbv zeta.
  split; [reflexivity|].
  destruct b as [st es].
  unfold Page.onDrop, Page.handleFileUpload, Page.try_finally, Page.try_catch,
    Page.bind, Page.fetch, Page.json.
  destruct net as [e| |s [obj|e|]]; cbn;
    try (destruct (Page.ok _); cbn);
    (split; [reflexivity|]); rewrite <- ?app_assoc; eexists; reflexivity.
Qed.

(** * The page and the route together *)

Lemma receives_uploaded (env : Env) (file : File) :
  receives env file -> uploaded env file.
Proof.
  intros H. eexists. split; [exact H|]. reflexivity.
Qed.

(** What the page makes of each kind of answer. *)
Lemma page_after_answer (env : Env) (file : File) :
  let run := Page.handleFileUpload (served env) file Page.start in
  (completion env = NeverSettles ->
   fst run = NeverSettles
   /\ Page.isProcessing (Page.state (snd run)) = true
   /\ Page.alerts (snd run) = [])
  /\ (forall text raw f,
        completion env = Normal (response_200 text raw f) ->
        Page.state (snd run)
        = {| Page.isDragActive := false; Page.uploadedFile := None;
             Page.isProcessing := false;
             Page.extractedText := Some (JString text) |}
        /\ Page.alerts (snd run) = [])
  /\ (forall status msg,
        completion env
        = Normal {| status := status;
                    body := [("message"%string, JString msg)] |} ->
        status = 400 \/ status = 500 ->
        Page.state (snd run) = Page.initial
        /\ Page.alerts (snd run) = [lit "Error: " ++ msg]).
Proof.
  cbv zeta. unfold served. repeat apply conj.
  - intros ->. repeat apply conj; reflexivity.
  - intros text raw f ->. split; reflexivity.
  - intros status msg -> [-> | ->]; split; reflexivity.
Qed.

(** X18: what the user gets from the route.  A 200 puts its [text] in the
    page and alerts nobody; every other answer (the three 400 and the 500)
    reaches the user as exactly one alert, ["Error: "] followed by the
    message of the route, and leaves no text; while the route hangs the
    page stays busy, without any alert. *)
Theorem route_answers_reach_the_user (env : Env) (file : File) :
  let run := Page.handleFileUpload (served env) file Page.start in
  match completion env with
  | NeverSettles =>
      fst run = NeverSettles
      /\ Page.isProcessing (Page.state (snd run)) = true
      /\ Page.alerts (snd run) = []
  | Throw _ => False
  | Normal r =>
      fst run = Normal tt
      /\ Page.isProcessing (Page.state (snd run)) = false
      /\ if status r =? 200
         then exists text,
                In ("text"%string, JString text) (body r)
                /\ Page.extractedText (Page.state (snd run))
                   = Some (JString text)
                /\ Page.alerts (snd run) = []
         else exists msg,
                body r = [("message"%string, JString msg)]
                /\ Page.extractedText (Page.state (snd run))
                   = Some (JString [])
                /\ Page.alerts (snd run) = [lit "Error: " ++ msg]
  end.
Proof.
  cbv zeta. unfold served.
  destruct (completion env) as [r|e|] eqn:Hdone.
  - destruct (POST_response_shapes env r Hdone)
      as [->|[->|[->|[->|(f & text & _ & _ & ->)]]]];
      (split; [reflexivity|split; [reflexivity|]]); cbn [status Z.eqb Pos.eqb];
      try (eexists; repeat apply conj; reflexivity).
    exists text. repeat apply conj; try reflexivity. left. reflexivity.
  - exact (POST_never_throws env e Hdone).
  - repeat apply conj; reflexivity.
Qed.

(** X19: what the page is told about the file it sent.  A file whose type
    is not [application/pdf] is answered by the alert "Error: Invalid file
    type. Only PDF files are allowed.", a PDF-typed file of more than
    5 * 1024 * 1024 bytes by "Error: File too large. Maximum size is
    5MB."; and since the page always sends a [file] field holding a file,
    it is never told "No file provided". *)
Theorem page_upload_rejections (env : Env) (file : File)
  (Hreq : receives env file) :
  let after := snd (Page.handleFileUpload (served env) file Page.start) in
  (type file <> lit "application/pdf" ->
   Page.alerts after
   = [lit "Error: Invalid file type. Only PDF files are allowed."])
  /\ (type file = lit "application/pdf" -> size file > 5 * 1024 * 1024 ->
      Page.alerts after = [lit "Error: File too large. Maximum size is 5MB."])
  /\ Page.alerts after <> [lit "Error: No file provided"].
Proof.
  cbv zeta. pose proof (receives_uploaded env file Hreq) as U.
  destruct (page_after_answer env file) as (Hhang & H200 & Hmsg).
  cbv zeta in Hhang, H200, Hmsg.
  assert (T : type file <> lit "application/pdf" ->
              Page.alerts
                (snd (Page.handleFileUpload (served env) file Page.start))
              = [lit "Error: Invalid file type. Only PDF files are allowed."]).
  { intros T.
    refine (proj2 (Hmsg 400 _ _ (or_introl eq_refl))).
    unfold completion. rewrite (POST_wrong_type env file U T). reflexivity. }
  assert (S : type file = lit "application/pdf" -> size file > 5 * 1024 * 1024 ->
              Page.alerts
                (snd (Page.handleFileUpload (served env) file Page.start))
              = [lit "Error: File too large. Maximum size is 5MB."]).
  { intros T' S.
    refine (proj2 (Hmsg 400 _ _ (or_introl eq_refl))).
    unfold completion. rewrite (POST_too_large env file U T' S). reflexivity. }
  split; [exact T|split; [exact S|]].
  destruct (valid_dec file) as [V|V].
  - destruct (completion env) as [r|e|] eqn:Hdone.
    + destruct (POST_response_shapes env r Hdone)
        as [->|[->|[->|[->|(f & text & _ & _ & ->)]]]].
      * unfold completion in Hdone. validated_cases env file U V P.
        exfalso.
        destruct (writeFile_outcome env); [rewrite P in Hdone; clash Hdone|].
        destruct (extractTextFromFile_promise env) as [|raw|e];
          try (rewrite P in Hdone; clash Hdone).
        destruct P as (mid & late & _ & _ & _ & P).
        destruct (preprocessText_promise env raw);
          try (rewrite P in Hdone; clash Hdone).
        destruct (unlink_outcome env 0%nat); rewrite P in Hdone;
          clash Hdone.
      * rewrite (proj2 (Hmsg 400 _ eq_refl (or_introl eq_refl))).
        intros H. clash H.
      * rewrite (proj2 (Hmsg 400 _ eq_refl (or_introl eq_refl))).
        intros H. clash H.
      * rewrite (proj2 (Hmsg 500 _ eq_refl (or_intror eq_refl))).
        intros H. clash H.
      * rewrite (proj2 (H200 _ _ _ eq_refl)). discriminate.
    + destruct (POST_never_throws env e Hdone).
    + destruct (Hhang eq_refl) as (_ & _ & ->). discriminate.
  - destruct (list_eq_dec N.eq_dec (type file) (lit "application/pdf"))
      as [T'|T'].
    + rewrite (S T'); [intros H; clash H|].
      destruct (Z_le_dec (size file) (5 * 1024 * 1024)); [|lia].
      destruct V. split; assumption.
    + rewrite (T T'). intros H. clash H.
Qed.

(** The page sends a Word document. *)
Lemma page_upload_rejections_witness :
  Page.alerts
    (snd (Page.handleFileUpload (served msword_upload)
            {| name := lit "cv.doc"; type := lit "application/msword";
               size := 10240; arrayBuffer := [] |} Page.start))
  = [lit "Error: Invalid file type. Only PDF files are allowed."].
Proof.
  refine (proj1 (page_upload_rejections msword_upload
                   {| name := lit "cv.doc"; type := lit "application/msword";
                      size := 10240; arrayBuffer := [] |} _) _).
  - reflexivity.
  - intros H. vm_compute in H. discriminate H.
Defined.

(** X20: a silent failure.  When everything succeeds but the anonymization
    worker exits 0 having printed nothing but white space, the route
    answers 200 with an empty [text], and the page shows neither a text
    nor an alert, whatever was extracted. *)
Theorem blank_anonymization_shows_nothing (env : Env) (file : File)
  (Hreq : receives env file) (Hvalid : valid file)
  (Hwritten : writeFile_outcome env = None)
  (Hextracted : settledBy (extract_events env) = Some (Close (Some 0)))
  (Hanonymized : settledBy (anonymize_events env) = Some (Close (Some 0)))
  (Hblank : trim (stdoutBefore (anonymize_events env)) = [])
  (Hdeleted : unlink_outcome env 0%nat = None) :
  let run := Page.handleFileUpload (served env) file Page.start in
  completion env
  = Normal (response_200 [] (trim (stdoutBefore (extract_events env))) file)
  /\ fst run = Normal tt
  /\ Page.showsExtractedText (Page.state (snd run)) = false
  /\ Page.alerts (snd run) = []
  /\ Page.isProcessing (Page.state (snd run)) = false.
Proof.
  cbv zeta.
  assert (Hdone : completion env
                  = Normal (response_200 []
                              (trim (stdoutBefore (extract_events env))) file)).
  { apply success_intro; auto.
    - apply receives_uploaded, Hreq.
    - apply extract_resolved. auto.
    - rewrite (preprocess_exit_0 _ _ Hanonymized), Hblank. reflexivity. }
  split; [exact Hdone|].
  unfold served. rewrite Hdone. repeat apply conj; reflexivity.
Qed.

Lemma blank_anonymization_shows_nothing_witness :
  let run := Page.handleFileUpload (served silent_anonymizer) cv_pdf
               Page.start in
  completion silent_anonymizer
  = Normal (response_200 []
              (trim (stdoutBefore (extract_events silent_anonymizer))) cv_pdf)
  /\ fst run = Normal tt
  /\ Page.showsExtractedText (Page.state (snd run)) = false
  /\ Page.alerts (snd run) = []
  /\ Page.isProcessing (Page.state (snd run)) = false.
Proof.
  apply (blank_anonymization_shows_nothing silent_anonymizer cv_pdf).
  - reflexivity.
  - split; [reflexivity | cbn; lia].
  - reflexivity.
  - reflexivity.
  - reflexivity.
  - reflexivity.
  - reflexivity.
Defined.
